(** * TripSmart: the trip-planning pipeline of [trip_agents.py],
      [main.py] and [main_simple.py]

    A shallow embedding of the Python sources and the properties of the
    provider fallback chain, the city extractor, the prompt builders and
    the pipeline runner.

    Python values are modelled as follows.
    - A [str] is a list of Unicode code points ([pystr]); lone surrogates
      are ordinary elements, as in CPython.
    - The regular expressions of the sources are values of [re]; matching
      is the backtracking search of the [re] module ([m], [scan]).
    - An exception is a value of [exn]; code that may raise returns
      [result].
    - Standard output is a UTF-8 stream with the strict error handler:
      [print] raises [UnicodeEncodeError] on a text with a surrogate.
    - The hosted services (the [LLM] constructor, the crews, the Groq
      client) are oracles: functions that say what a call returns or
      raises. *)

From Stdlib Require Import List NArith ZArith Bool Ascii String Lia.
From Stdlib Require Import DecimalString QArith.
Import ListNotations.
Close Scope Q_scope.

Set Implicit Arguments.

(** ** Python strings *)

Definition pystr := list N.

(** [py "..."] is the [str] literal with the given ASCII text. *)
Definition py (s : string) : pystr :=
  map N_of_ascii (list_ascii_of_string s).

Definition pystr_eqb (a b : pystr) : bool :=
  if list_eq_dec N.eq_dec a b then true else false.

Definition in_range (lo hi c : N) : bool := ((lo <=? c) && (c <=? hi))%N.

(** [str.isspace] of one code point; this is also the class [\s] of a
    [str] pattern. *)
Definition isspace (c : N) : bool :=
  in_range 0x09 0x0D c || in_range 0x1C 0x20 c
  || (c =? 0x85)%N || (c =? 0xA0)%N || (c =? 0x1680)%N
  || in_range 0x2000 0x200A c
  || (c =? 0x2028)%N || (c =? 0x2029)%N || (c =? 0x202F)%N
  || (c =? 0x205F)%N || (c =? 0x3000)%N.

Definition isupper_ascii (c : N) : bool := in_range 65 90 c.   (* [A-Z] *)
Definition islower_ascii (c : N) : bool := in_range 97 122 c.  (* [a-z] *)
Definition isdigit_ascii (c : N) : bool := in_range 48 57 c.   (* [0-9] *)

Definition lower_ascii (c : N) : N :=
  if isupper_ascii c then (c + 32)%N else c.

Fixpoint dropwhile (p : N -> bool) (s : pystr) : pystr :=
  match s with
  | c :: t => if p c then dropwhile p t else s
  | [] => []
  end.

(** [s.strip()] *)
Definition strip (s : pystr) : pystr :=
  rev (dropwhile isspace (rev (dropwhile isspace s))).

(** [s.startswith(prefix)] *)
Fixpoint startswith (s prefix : pystr) {struct prefix} : bool :=
  match prefix, s with
  | [], _ => true
  | p :: prefix', c :: s' => (c =? p)%N && startswith s' prefix'
  | _ :: _, [] => false
  end.

(** [s.endswith(suffix)] *)
Definition endswith (s suffix : pystr) : bool :=
  startswith (rev s) (rev suffix).

(** [needle in s] *)
Fixpoint contains (s needle : pystr) : bool :=
  startswith s needle ||
  match s with
  | _ :: t => contains t needle
  | [] => false
  end.

(** [sep.join(parts)] *)
Fixpoint join (sep : pystr) (parts : list pystr) : pystr :=
  match parts with
  | [] => []
  | [p] => p
  | p :: rest => p ++ sep ++ join sep rest
  end.

(** [str(n)] for an [int]. *)
Definition str_of_int (n : Z) : pystr :=
  py (NilZero.string_of_int (Z.to_int n)).

(** ** Python values and exceptions *)

(** Only [str] values are looked into; every other object is carried
    with the text that [str()] gives for it. *)
Inductive pyval :=
| VStr (s : pystr)
| VDict (shown : pystr)
| VObj (shown : pystr).

(** [str(v)] *)
Definition str_of (v : pyval) : pystr :=
  match v with
  | VStr s => s
  | VDict shown => shown
  | VObj shown => shown
  end.

Inductive exn :=
| RuntimeError (msg : pystr)
| TypeError (msg : pystr)
| AttributeError (msg : pystr)
| UnicodeEncodeError (msg : pystr)
| ServiceError (msg : pystr).

(** [str(e)] *)
Definition exn_msg (e : exn) : pystr :=
  match e with
  | RuntimeError m | TypeError m | AttributeError m | UnicodeEncodeError m
  | ServiceError m => m
  end.

Inductive result (A : Type) :=
| Ok (a : A)
| Raise (e : exn).
Arguments Ok {A} a.
Arguments Raise {A} e.

(** ** Regular expressions of the [re] module

    The fragment the sources use: character classes, sequence,
    alternation, a quantified character class (greedy or lazy, with
    bounds), one capture group and the word boundary [\b]. *)

Inductive re :=
| Cls (p : N -> bool)
| Seq (r1 r2 : re)
| Alt (r1 r2 : re)
| Rep (greedy : bool) (lo : nat) (hi : option nat) (p : N -> bool)
| Grp (r : re)
| WordB.

Declare Scope re_scope.
Delimit Scope re_scope with re.
Bind Scope re_scope with re.
Infix "·" := Seq (at level 40, left associativity) : re_scope.
Infix "∣" := Alt (at level 50, left associativity) : re_scope.

Definition Chr (c : N) : re := Cls (N.eqb c).
Definition star (p : N -> bool) : re := Rep true 0 None p.      (* p*  *)
Definition plus_lazy (p : N -> bool) : re := Rep false 1 None p. (* p+? *)

(** The cursor of a match attempt: the character before it (for [\b]),
    the text ahead and the position. *)
Record cursor := Cursor { before : option N; ahead : pystr; at_pos : nat }.

Definition orelse {R} (a b : option R) : option R :=
  match a with
  | Some x => Some x
  | None => b
  end.

Definition may_repeat (hi : option nat) : bool :=
  match hi with
  | Some O => false
  | _ => true
  end.

Definition one_less (hi : option nat) : option nat :=
  match hi with
  | Some n => Some (pred n)
  | None => None
  end.

Section TripSmart.

(** The Unicode database of the interpreter is not part of this
    program. What the sources can reach of it outside ASCII and white
    space is a parameter: [str.isalnum] above the ASCII range, and
    [str.lower] of a string with a character that is neither ASCII nor
    white space. *)
Variable isalnum_high : N -> bool.
Variable lower_high : pystr -> pystr.

(** [s.lower()]: white space has no case; on ASCII only [A-Z] change. *)
Definition lower (s : pystr) : pystr :=
  if forallb (fun c => (c <? 128)%N || isspace c) s
  then map lower_ascii s
  else lower_high s.

(** The class [\w] of a [str] pattern. *)
Definition isword (c : N) : bool :=
  if (c <? 128)%N
  then isupper_ascii c || islower_ascii c || isdigit_ascii c || (c =? 95)%N
  else isalnum_high c.

Definition isword_opt (c : option N) : bool :=
  match c with
  | Some c => isword c
  | None => false
  end.

(** [\b] holds where exactly one side is a word character. *)
Definition at_boundary (cur : cursor) : bool :=
  xorb (isword_opt (before cur)) (isword_opt (hd_error (ahead cur))).

(** A quantified class [p{lo,hi}], greedy or lazy, followed by the
    continuation [k]. *)
Fixpoint m_rep {R} (greedy : bool) (p : N -> bool) (lo : nat)
    (hi : option nat) (prev : option N) (rest : pystr) (pos : nat)
    (k : cursor -> option R) {struct rest} : option R :=
  let more :=
    match rest with
    | c :: rest' =>
        if p c && may_repeat hi
        then m_rep greedy p (pred lo) (one_less hi) (Some c) rest' (S pos) k
        else None
    | [] => None
    end in
  match lo with
  | S _ => more
  | O =>
      if greedy
      then orelse more (k (Cursor prev rest pos))
      else orelse (k (Cursor prev rest pos)) more
  end.

(** [m r cur g k]: match [r] at [cur], then continue with [k]; [g] is
    the text of the capture group so far. Alternatives are tried in
    order and the first complete match is kept. *)
Fixpoint m {R} (r : re) (cur : cursor) (g : option pystr)
    (k : cursor -> option pystr -> option R) : option R :=
  match r with
  | Cls p =>
      match ahead cur with
      | c :: rest =>
          if p c then k (Cursor (Some c) rest (S (at_pos cur))) g else None
      | [] => None
      end
  | Seq r1 r2 => m r1 cur g (fun cur' g' => m r2 cur' g' k)
  | Alt r1 r2 => orelse (m r1 cur g k) (m r2 cur g k)
  | Rep greedy lo hi p =>
      m_rep greedy p lo hi (before cur) (ahead cur) (at_pos cur)
        (fun cur' => k cur' g)
  | Grp r1 =>
      m r1 cur g (fun cur' _ =>
        k cur' (Some (firstn (at_pos cur' - at_pos cur) (ahead cur))))
  | WordB => if at_boundary cur then k cur g else None
  end.

(** A match starting at the cursor: its end position and group. *)
Definition match_at (r : re) (cur : cursor) : option (nat * option pystr) :=
  m r cur None (fun cur' g => Some (at_pos cur', g)).

(** What a left-to-right search leaves of the text: the characters
    outside every match, and the matches. *)
Inductive piece :=
| Skipped (c : N)
| Matched (group : option pystr).

(** The search of [re.findall] and [re.sub]: matches are found from
    left to right and do not overlap; [skip] counts the characters
    still inside the last match. None of the patterns of this program
    matches the empty string. *)
Fixpoint scan (r : re) (prev : option N) (rest : pystr) (pos skip : nat)
    {struct rest} : list piece :=
  match skip with
  | S skip' =>
      match rest with
      | c :: rest' => scan r (Some c) rest' (S pos) skip'
      | [] => []
      end
  | O =>
      match match_at r (Cursor prev rest pos) with
      | Some (e, g) =>
          Matched g ::
          match rest with
          | c :: rest' => scan r (Some c) rest' (S pos) (e - pos - 1)
          | [] => []
          end
      | None =>
          match rest with
          | c :: rest' => Skipped c :: scan r (Some c) rest' (S pos) 0
          | [] => []
          end
      end
  end.

(** [re.findall(r, text)] for a pattern with one group. *)
Definition findall (r : re) (text : pystr) : list pystr :=
  flat_map (fun pc =>
              match pc with
              | Matched (Some g) => [g]
              | Matched None => [[]]
              | Skipped _ => []
              end)
           (scan r None text 0 0).

(** [re.sub(r, repl, text)] for a replacement without group
    references. *)
Definition sub (r : re) (repl text : pystr) : pystr :=
  flat_map (fun pc =>
              match pc with
              | Matched _ => repl
              | Skipped c => [c]
              end)
           (scan r None text 0 0).

(** ** [clean_surrogates] (the same function in all three files) *)

Definition is_surrogate (c : N) : bool := in_range 0xD800 0xDFFF c.

(** [[\ud800-\udfff]] *)
Definition surrogates : re := Cls is_surrogate.

Definition clean_surrogates (text : pyval) : pyval :=
  match text with
  | VStr s => VStr (sub surrogates [] s)
  | _ => text
  end.

(** ** [TripCrew.extract_first_city] *)

Definition one_of (chars : pystr) (c : N) : bool := existsb (N.eqb c) chars.

Definition alpha_space (c : N) : bool :=
  islower_ascii c || isupper_ascii c || isspace c.     (* [a-zA-Z\s] *)

Definition bullet : N := 0x2022.

(** [(?:,\s*[A-Z][a-zA-Z\s]+?|\s*[-,:]|\n)] *)
Definition item_end : re :=
  (Chr 44 · star isspace · Cls isupper_ascii · plus_lazy alpha_space
   ∣ star isspace · Cls (one_of (py "-,:"))
   ∣ Chr 10)%re.

(** [([A-Z][a-zA-Z\s]+?)] *)
Definition name_group : re :=
  Grp (Cls isupper_ascii · plus_lazy alpha_space).

Definition numbered_item : re :=
  (Chr 49 · Chr 46 · star isspace · name_group · item_end)%re.

Definition bullet_item : re :=
  (Cls (one_of (py "-*" ++ [bullet])) · star isspace · name_group
   · item_end)%re.

(** [(\b[A-Z][a-zA-Z\s]+?)(?:\s*[-,:])] *)
Definition before_punctuation : re :=
  (Grp (WordB · Cls isupper_ascii · plus_lazy alpha_space)
   · star isspace · Cls (one_of (py "-,:")))%re.

(** [([A-Z][a-zA-Z\s]{3,25})] *)
Definition capitalized_words : re :=
  Grp (Cls isupper_ascii · Rep true 3 (Some 25) alpha_space).

Definition patterns : list re :=
  [numbered_item; bullet_item; before_punctuation; capitalized_words].

Definition excluded_words : list pystr :=
  map py ["the"; "and"; "for"; "with"; "city"; "travel"; "trip"; "based";
          "type"; "perfect"; "best"; "experience"; "plan"; "planning";
          "expert"; "reasons"; "selection"]%string.

(** The condition under which a candidate is returned. *)
Definition accepted (city : pystr) : bool :=
  (2 <? List.length city)
  && negb (existsb (pystr_eqb (lower city)) excluded_words)
  && negb (existsb (fun ew => startswith (lower city) ew) excluded_words)
  && negb (endswith (lower city) (py "city")).

(** The inner loop [for match in matches]: [Some city] is
    [return city], [None] is the loop running to its end. *)
Fixpoint first_accepted (matches : list pystr) : option pystr :=
  match matches with
  | [] => None
  | mt :: rest =>
      let city := strip mt in
      if accepted city then Some city else first_accepted rest
  end.

Definition default_city : pystr := py "Paris".

(** The outer loop [for pattern in patterns] and the fallback after
    it. *)
Fixpoint try_patterns (ps : list re) (text : pystr) : pystr :=
  match ps with
  | [] => default_city
  | p :: ps' =>
      match findall p text with
      | [] => try_patterns ps' text
      | matches =>
          match first_accepted matches with
          | Some city => city
          | None => try_patterns ps' text
          end
      end
  end.

(** A dict is turned into text first; [re.findall] raises [TypeError]
    on anything that is not a [str]. *)
Definition extract_first_city (city_output : pyval) : result pystr :=
  let city_output :=
    match city_output with
    | VDict shown => VStr shown
    | _ => city_output
    end in
  match clean_surrogates city_output with
  | VStr text => Ok (try_patterns patterns text)
  | _ => Raise (TypeError (py "expected string or bytes-like object"))
  end.

(** ** [TripAgents._initialize_llm]: the provider fallback chain *)

(** [os.environ], as far as the program reads it. *)
Record environ := {
  GROQ_API_KEY : option pystr;
  HUGGINGFACE_API_KEY : option pystr;
  OPENAI_API_KEY : option pystr;
  LITELLM_MODEL : option pystr;
  LITELLM_PROVIDER : option pystr
}.

(** [os.getenv(name, default)] *)
Definition getenv_default (v : option pystr) (default : pystr) : pystr :=
  match v with
  | Some s => s
  | None => default
  end.

(** [if key:] for a key read with [os.getenv]: unset and empty are
    both false. *)
Definition truthy (v : option pystr) : bool :=
  match v with
  | Some (_ :: _) => true
  | _ => false
  end.

(** The keyword arguments of one [LLM(...)] call. *)
Record llm_config := {
  model : pystr;
  api_key : option pystr;
  temperature : Q;
  max_tokens : Z;
  custom_llm_provider : option pystr
}.

(** The object a successful [LLM(...)] call returns. *)
Record llm := { llm_args : llm_config }.

Variable env : environ.

(** Oracle for the [LLM] constructor: the exception it raises for the
    given arguments, if any. *)
Variable LLM_raises : llm_config -> option exn.

(** Initialisation threads the list of [LLM(...)] calls made so far. *)
Definition Init (A : Type) : Type := list llm_config -> A * list llm_config.

Definition ret {A} (a : A) : Init A := fun calls => (a, calls).

Definition bind {A B} (c : Init A) (f : A -> Init B) : Init B :=
  fun calls => let (a, calls') := c calls in f a calls'.

Notation "x <- c ;; k" := (bind c (fun x => k))
  (at level 61, c at next level, right associativity).

Definition LLM (args : llm_config) : Init (result llm) :=
  fun calls =>
    (match LLM_raises args with
     | Some e => Raise e
     | None => Ok {| llm_args := args |}
     end, calls ++ [args]).

Definition groq_config (model_name : pystr) : llm_config :=
  {| model := model_name; api_key := None; temperature := (7 # 10)%Q;
     max_tokens := 1000; custom_llm_provider := Some (py "groq") |}.

Definition groq_models : list pystr :=
  map py ["mixtral-8x7b-32768"; "llama2-70b-4096"; "gemma-7b-it"]%string.

Definition hf_config (tokens : Z) (model_name : pystr) : llm_config :=
  {| model := model_name; api_key := HUGGINGFACE_API_KEY env;
     temperature := (7 # 10)%Q; max_tokens := tokens;
     custom_llm_provider := None |}.

Definition alternative_hf_models : list pystr :=
  map py ["google/flan-t5-base"; "microsoft/DialoGPT-small";
          "HuggingFaceH4/zephyr-7b-beta"]%string.

Definition openai_config : llm_config :=
  {| model := py "gpt-3.5-turbo"; api_key := OPENAI_API_KEY env;
     temperature := (7 # 10)%Q; max_tokens := 1000;
     custom_llm_provider := None |}.

(** [for model in models: try: llm = LLM(...); return llm
    except Exception: continue]. [Some llm] is the [return]. *)
Fixpoint try_models (config : pystr -> llm_config) (models : list pystr)
    : Init (option llm) :=
  match models with
  | [] => ret None
  | model_name :: rest =>
      r <- LLM (config model_name) ;;
      match r with
      | Ok l => ret (Some l)
      | Raise _ => try_models config rest
      end
  end.

Definition no_llm_message : pystr :=
  py "No valid LLM could be initialized. Please check your API keys and model configurations in .env.local.".

(** Attempt 1: the [if groq_key:] block. [Some llm] is [return llm];
    [None] is control reaching the statement after the block. *)
Definition attempt_groq : Init (option llm) :=
  if truthy (GROQ_API_KEY env)
  then r <- LLM (groq_config (py "llama3-8b-8192")) ;;
       match r with
       | Ok l => ret (Some l)
       | Raise _ => try_models groq_config groq_models
       end
  else ret None.

(** Attempt 2: the [if hf_api_key:] block. *)
Definition attempt_huggingface : Init (option llm) :=
  let model_name :=
    getenv_default (LITELLM_MODEL env) (py "microsoft/DialoGPT-medium") in
  if truthy (HUGGINGFACE_API_KEY env)
  then r <- LLM (hf_config 1000 model_name) ;;
       match r with
       | Ok l => ret (Some l)
       | Raise _ => try_models (hf_config 800) alternative_hf_models
       end
  else ret None.

(** Attempt 3: the [if openai_key:] block. *)
Definition attempt_openai : Init (option llm) :=
  if truthy (OPENAI_API_KEY env)
  then r <- LLM openai_config ;;
       match r with
       | Ok l => ret (Some l)
       | Raise _ => ret None
       end
  else ret None.

Definition _initialize_llm : Init (result llm) :=
  groq <- attempt_groq ;;
  match groq with
  | Some l => ret (Ok l)
  | None =>
      hf <- attempt_huggingface ;;
      match hf with
      | Some l => ret (Ok l)
      | None =>
          openai <- attempt_openai ;;
          match openai with
          | Some l => ret (Ok l)
          | None => ret (Raise (RuntimeError no_llm_message))
          end
      end
  end.

(** The provider specs in priority order, as the specification lists
    them: primary, secondary models, alternate provider, the alternate
    provider's alternates; a provider without credential has none. *)
Definition groq_specs : list llm_config :=
  if truthy (GROQ_API_KEY env)
  then groq_config (py "llama3-8b-8192") :: map groq_config groq_models
  else [].

Definition huggingface_specs : list llm_config :=
  if truthy (HUGGINGFACE_API_KEY env)
  then hf_config 1000
         (getenv_default (LITELLM_MODEL env) (py "microsoft/DialoGPT-medium"))
       :: map (hf_config 800) alternative_hf_models
  else [].

Definition openai_specs : list llm_config :=
  if truthy (OPENAI_API_KEY env) then [openai_config] else [].

Definition provider_specs : list llm_config :=
  groq_specs ++ huggingface_specs ++ openai_specs.

(** The resolver of the specification: iterate the specs in order and
    return the first client whose construction succeeds. *)
Fixpoint first_success (specs : list llm_config) : Init (option llm) :=
  match specs with
  | [] => ret None
  | spec :: rest =>
      r <- LLM spec ;;
      match r with
      | Ok l => ret (Some l)
      | Raise _ => first_success rest
      end
  end.


(** ** [TripAgents.__init__] and [TripCrew.__init__] *)

(** The preferences dict built by [main]. *)
Record Inputs := {
  travel_type : pystr;
  interests : pystr;
  season : pystr;
  duration : Z;
  budget : pystr
}.

Record TripAgents := { agents_llm : llm }.

(** An [LLM] object is true, so the guard [if not self.llm] never
    fires once [_initialize_llm] has returned. *)
Definition TripAgents_init : Init (result TripAgents) :=
  r <- _initialize_llm ;;
  match r with
  | Ok l => ret (Ok {| agents_llm := l |})
  | Raise e => ret (Raise e)
  end.

Record TripCrew := { crew_inputs : Inputs; crew_agents : TripAgents }.

Definition TripCrew_init (inputs : Inputs) : Init (result TripCrew) :=
  r <- TripAgents_init ;;
  match r with
  | Ok a => ret (Ok {| crew_inputs := inputs; crew_agents := a |})
  | Raise e => ret (Raise e)
  end.

(** ** Standard output

    [print] writes to [sys.stdout], taken to be a UTF-8 text stream with
    the strict error handler and no newline translation, the way the
    interpreter opens it for a terminal under a UTF-8 locale. Such a
    stream takes every text but one with a surrogate code point, for
    which the codec raises [UnicodeEncodeError]; the text of that
    exception names the first run of surrogates. ([traceback.print_exc]
    writes to [sys.stderr], whose handler is [backslashreplace] and
    which takes every text. The two [print] calls of
    [extract_first_city] write a text of the source and a name made of
    letters and white space. The progress lines of [_initialize_llm]
    are made of texts of the source and of the configuration; they are
    not modelled.) *)

(** The number of leading characters of [s] in [p]. *)
Fixpoint leading (p : N -> bool) (s : pystr) : nat :=
  match s with
  | c :: rest => if p c then S (leading p rest) else 0
  | [] => 0
  end.

(** The first run of surrogates of a text: its position, its first
    code point and its length. *)
Fixpoint surrogate_run (text : pystr) (pos : nat) : option (nat * N * nat) :=
  match text with
  | [] => None
  | c :: rest =>
      if is_surrogate c then Some (pos, c, S (leading is_surrogate rest))
      else surrogate_run rest (S pos)
  end.

Definition hex_digit (d : N) : N :=
  if (d <? 10)%N then (48 + d)%N else (87 + d)%N.

(** ['%04x' % c] *)
Definition hex4 (c : N) : pystr :=
  map (fun k => hex_digit ((c / 16 ^ k) mod 16)%N) [3; 2; 1; 0]%N.

(** [str(e)] of the codec's [UnicodeEncodeError]. *)
Definition encode_error_message (start : nat) (c : N) (len : nat) : pystr :=
  match len with
  | 1 =>
      py "'utf-8' codec can't encode character '\u" ++ hex4 c
      ++ py "' in position " ++ str_of_int (Z.of_nat start)
      ++ py ": surrogates not allowed"
  | _ =>
      py "'utf-8' codec can't encode characters in position "
      ++ str_of_int (Z.of_nat start) ++ py "-"
      ++ str_of_int (Z.of_nat (start + len - 1))
      ++ py ": surrogates not allowed"
  end.

(** [text.encode('utf-8')]: [None] when the text is encoded, else the
    text of the exception. *)
Definition encode_error (text : pystr) : option pystr :=
  match surrogate_run text 0 with
  | None => None
  | Some (start, c, len) => Some (encode_error_message start c len)
  end.

Definition print (text : pystr) : result unit :=
  match encode_error text with
  | None => Ok tt
  | Some msg => Raise (UnicodeEncodeError msg)
  end.

(** ** [TripCrew.run] *)

(** What a crew hands back: the attributes the program probes with
    [hasattr], and the text [str()] gives for the object. *)
Record task_output := {
  description : pystr;
  task_raw : option pyval;
  task_shown : pystr
}.

Record crew_output := {
  raw : option pyval;
  result_attr : option pyval;
  tasks_output : option (list task_output);
  shown : pystr
}.

(** The returned dict, one field per key. *)
Record TripPlan := {
  city_selection : pyval;
  city_research : pyval;
  itinerary : pyval;
  budget_plan : pyval
}.

(** Oracles for the two crews. [city_kickoff] stands for the statements
    from [city_selector_agent()] to [city_crew.kickoff()], [trip_kickoff]
    for those from [local_expert_agent()] to [trip_crew.kickoff()]; each
    returns the result object or the exception raised on the way. *)
Variable city_kickoff : TripCrew -> result crew_output.
Variable trip_kickoff : TripCrew -> pystr -> result crew_output.

Definition bind_result {A B} (c : result A) (f : A -> result B) : result B :=
  match c with
  | Ok a => f a
  | Raise e => Raise e
  end.

Notation "x <~ c ;; k" := (bind_result c (fun x => k))
  (at level 61, c at next level, right associativity).

(** [try: body except Exception as e: handler] *)
Definition try_except {A} (body : result A) (handler : exn -> result A)
    : result A :=
  match body with
  | Ok a => Ok a
  | Raise e => handler e
  end.

(** [o.raw if hasattr(o, 'raw') else str(o.result)] *)
Definition city_output_raw_of (o : crew_output) : result pyval :=
  match raw o with
  | Some r => Ok r
  | None =>
      match result_attr o with
      | Some r => Ok (VStr (str_of r))
      | None => Raise (AttributeError (py "object has no attribute 'result'"))
      end
  end.

(** [t.raw if hasattr(t, 'raw') else str(t)] *)
Definition task_text (t : task_output) : pyval :=
  match task_raw t with
  | Some r => r
  | None => VStr (task_shown t)
  end.

(** The three outputs while the loop over [tasks_output] runs. *)
Record details := {
  research_output : pyval;
  itinerary_output : pyval;
  budget_output : pyval
}.

Definition no_details : details :=
  {| research_output := VStr (py "No research available");
     itinerary_output := VStr (py "No itinerary available");
     budget_output := VStr (py "No budget available") |}.

(** One turn of [for task_result in tasks_output]. *)
Definition assign_task (d : details) (t : task_output) : details :=
  let desc := lower (description t) in
  if contains desc (py "research") then
    {| research_output := task_text t;
       itinerary_output := itinerary_output d;
       budget_output := budget_output d |}
  else if contains desc (py "itinerary") then
    {| research_output := research_output d;
       itinerary_output := task_text t;
       budget_output := budget_output d |}
  else if contains desc (py "budget") then
    {| research_output := research_output d;
       itinerary_output := itinerary_output d;
       budget_output := task_text t |}
  else d.

Definition collect_details (o : crew_output) : result details :=
  match tasks_output o with
  | Some (t :: ts) => Ok (fold_left assign_task (t :: ts) no_details)
  | _ =>
      _ <~ print (py "WARNING: 'tasks_output' not found as expected. Attempting string parsing fallback.") ;;
      let result_str :=
        VStr (str_of (match result_attr o with
                      | Some r => r
                      | None => VObj (shown o)
                      end)) in
      Ok {| research_output := result_str;
            itinerary_output := result_str;
            budget_output := result_str |}
  end.

(** The body of the [try] block. *)
Definition run_body (self : TripCrew) : result TripPlan :=
  _ <~ print ([0x1F30D%N] ++ py " Starting city selection...") ;;
  city_result_object <~ city_kickoff self ;;
  city_output_raw <~ city_output_raw_of city_result_object ;;
  _ <~ print (py "City selection raw output: " ++ str_of city_output_raw) ;;
  selected_city <~ extract_first_city city_output_raw ;;
  _ <~ print ([0x2705%N] ++ py " Selected city for detailed planning: "
              ++ selected_city) ;;
  _ <~ print ([0x1F50D%N] ++ py " Researching " ++ selected_city ++ py "...") ;;
  detailed_results_object <~ trip_kickoff self selected_city ;;
  d <~ collect_details detailed_results_object ;;
  Ok {| city_selection := clean_surrogates city_output_raw;
        city_research := clean_surrogates (research_output d);
        itinerary := clean_surrogates (itinerary_output d);
        budget_plan := clean_surrogates (budget_output d) |}.

Definition unable : pyval := VStr (py "Unable to generate due to error").

(** The dict returned by the [except] block. *)
Definition error_plan (e : exn) : TripPlan :=
  {| city_selection :=
       VStr (py "Error occurred during city selection: " ++ exn_msg e
             ++ py ". Please check your API configuration and try again.");
     city_research := unable;
     itinerary := unable;
     budget_plan := unable |}.

(** The text printed first in the [except] block. *)
Definition error_line (e : exn) : pystr :=
  [0x274C%N] ++ py " Error in TripCrew.run(): " ++ exn_msg e.

(** An exception raised in the [except] block leaves [run]. *)
Definition run (self : TripCrew) : result TripPlan :=
  try_except (run_body self)
    (fun e =>
       _ <~ print (error_line e) ;;
       Ok (error_plan e)).


(** ** The prompts of [main_simple.py] *)

(** Oracle for the Groq client:
    [client.chat.completions.create(...).choices[0].message.content]. *)
Variable chat_completion : pystr -> result pystr.

Definition get_groq_response (prompt : pystr) : pystr :=
  match chat_completion prompt with
  | Ok content => content
  | Raise e => py "Error: " ++ exn_msg e
  end.

(** The lines of a triple-quoted literal. *)
Definition lines (ls : list pystr) : pystr := join [10%N] ls.

Definition city_recommendations_prompt (inputs : Inputs) : pystr :=
  lines
    [ py "";
      py "    As a travel expert, recommend 3 best cities to visit based on these preferences:";
      py "    ";
      py "    Travel Type: " ++ travel_type inputs;
      py "    Interests: " ++ interests inputs;
      py "    Season: " ++ season inputs;
      py "    Budget Range: " ++ budget inputs;
      py "    Duration: " ++ str_of_int (duration inputs) ++ py " days";
      py "    ";
      py "    For each city, provide:";
      py "    1. City name and country";
      py "    2. Why it matches their travel type and interests";
      py "    3. Why it's perfect for the specified season";
      py "    4. Brief highlight of what makes it special";
      py "    ";
      py "    Format as a numbered list with city names clearly stated.";
      py "    " ].

Definition destination_research_prompt (city : pystr) (inputs : Inputs) : pystr :=
  lines
    [ py "";
      py "    Provide comprehensive research about " ++ city ++ py " for a traveler with these preferences:";
      py "    Travel Type: " ++ travel_type inputs;
      py "    Interests: " ++ interests inputs;
      py "    Duration: " ++ str_of_int (duration inputs) ++ py " days";
      py "    ";
      py "    Include:";
      py "    1. TOP 5 ATTRACTIONS: Must-visit places with brief descriptions and estimated time";
      py "    2. LOCAL CUISINE: Signature dishes and where to find them";
      py "    3. CULTURAL INSIGHTS: Important customs, etiquette, and cultural norms";
      py "    4. ACCOMMODATION: Best areas to stay for different budgets";
      py "    5. TRANSPORTATION: How to get around the city efficiently";
      py "    6. BEST TIME TO VISIT: Optimal months, weather, and crowds";
      py "    7. PRACTICAL TIPS: Currency, safety, language basics, common scams";
      py "    ";
      py "    Make this practical and actionable for travelers.";
      py "    " ].

Definition itinerary_prompt (city : pystr) (inputs : Inputs) : pystr :=
  lines
    [ py "";
      py "    Create a detailed " ++ str_of_int (duration inputs) ++ py "-day itinerary for " ++ city ++ py " based on:";
      py "    - Travel Type: " ++ travel_type inputs;
      py "    - Interests: " ++ interests inputs;
      py "    - Duration: " ++ str_of_int (duration inputs) ++ py " days";
      py "    ";
      py "    For each day, include:";
      py "    1. DAY NUMBER: Clearly state the day (e.g., 'Day 1: Arrival and City Exploration')";
      py "    2. Morning activities (9 AM - 12 PM) with specific attractions/locations";
      py "    3. Afternoon activities (12 PM - 5 PM) with specific attractions/locations";
      py "    4. Evening activities (5 PM - 9 PM) including dinner recommendations";
      py "    5. Recommended restaurants for each meal with cuisine type";
      py "    6. Transportation methods between locations";
      py "    7. Estimated time for each activity";
      py "    8. Booking requirements or tips";
      py "    ";
      py "    Make activities geographically logical and account for travel time.";
      py "    " ].

Definition budget_plan_prompt (city : pystr) (inputs : Inputs) : pystr :=
  lines
    [ py "";
      py "    Create a realistic budget plan for a " ++ str_of_int (duration inputs) ++ py "-day trip to " ++ city ++ py " ";
      py "    with a " ++ budget inputs ++ py " budget.";
      py "    ";
      py "    Break down costs for:";
      py "    1. ACCOMMODATION: Per night costs and total";
      py "    2. MEALS: Daily averages for Breakfast, Lunch, Dinner";
      py "    3. TRANSPORTATION: Local transport, airport transfers";
      py "    4. ATTRACTIONS: Entry fees for major sights";
      py "    5. SHOPPING & MISCELLANEOUS: Daily allowance for souvenirs, snacks";
      py "    6. EMERGENCY FUND: 10-15% buffer of total cost";
      py "    ";
      py "    Provide:";
      py "    - Daily budget estimates for each category";
      py "    - Total estimated budget for the entire trip";
      py "    - Money-saving tips specific to " ++ city;
      py "    - Splurge recommendations with costs";
      py "    ";
      py "    Use local currency or USD with clear indication.";
      py "    " ].

Definition generate_city_recommendations (inputs : Inputs) : pystr :=
  get_groq_response (city_recommendations_prompt inputs).

Definition generate_destination_research (city : pystr) (inputs : Inputs)
    : pystr :=
  get_groq_response (destination_research_prompt city inputs).

Definition generate_itinerary (city : pystr) (inputs : Inputs) : pystr :=
  get_groq_response (itinerary_prompt city inputs).

Definition generate_budget_plan (city : pystr) (inputs : Inputs) : pystr :=
  get_groq_response (budget_plan_prompt city inputs).

(** The four stages, and the prompt of each: [PromptBuilder.build] of
    the specification. *)
Inductive stage := CitySelection | Research | Itinerary | Budget.

Definition build (st : stage) (inputs : Inputs) (city : pystr) : pystr :=
  match st with
  | CitySelection => city_recommendations_prompt inputs
  | Research => destination_research_prompt city inputs
  | Itinerary => itinerary_prompt city inputs
  | Budget => budget_plan_prompt city inputs
  end.

(** The dict [main] builds from the form; [None] is the early [return]
    taken when no interest is selected. *)
Definition form_inputs (travel : pystr) (selected : list pystr)
    (when : pystr) (days : Z) (range : pystr) : option Inputs :=
  match selected with
  | [] => None
  | _ =>
      Some {| travel_type := travel;
              interests := join (py ", ") selected;
              season := when;
              duration := days;
              budget := range |}
  end.

(** ** Notions used in the statements *)

(** [needle] occurs in [s]. *)
Definition substr (needle s : pystr) : Prop :=
  exists pre post, s = pre ++ needle ++ post.

Definition not_surrogate (c : N) : bool := negb (is_surrogate c).

(** Neither a letter with a case outside ASCII nor a surrogate: an
    ASCII character or white space. *)
Definition plain (c : N) : bool := (c <? 128)%N || isspace c.

(** All candidates of all rules, in rule order and then match order. *)
Definition candidates (ps : list re) (text : pystr) : list pystr :=
  flat_map (fun p => findall p text) ps.






(** Every character class of [r] accepts only characters of [q]. *)
Fixpoint classes_within (q : N -> bool) (r : re) : Prop :=
  match r with
  | Cls p => forall c, p c = true -> q c = true
  | Rep _ _ _ p => forall c, p c = true -> q c = true
  | Seq r1 r2 | Alt r1 r2 => classes_within q r1 /\ classes_within q r2
  | Grp r1 => classes_within q r1
  | WordB => True
  end.

(** The capture groups of [r] accept only characters of [q]. *)
Fixpoint groups_within (q : N -> bool) (r : re) : Prop :=
  match r with
  | Cls _ | Rep _ _ _ _ | WordB => True
  | Seq r1 r2 | Alt r1 r2 => groups_within q r1 /\ groups_within q r2
  | Grp r1 => classes_within q r1
  end.

Definition group_within (q : N -> bool) (g : option pystr) : Prop :=
  match g with
  | Some t => forallb q t = true
  | None => True
  end.

Definition piece_within (q : N -> bool) (pc : piece) : Prop :=
  match pc with
  | Matched g => group_within q g
  | Skipped _ => True
  end.

(** ** Sample inputs *)

(** An interpreter without letters or digits above ASCII; on ASCII text
    neither parameter is consulted. *)
Definition ascii_alnum : N -> bool := fun _ => false.
Definition ascii_lower : pystr -> pystr := fun s => s.


Definition groq_only : environ :=
  {| GROQ_API_KEY := Some (py "gsk-test"); HUGGINGFACE_API_KEY := None;
     OPENAI_API_KEY := None; LITELLM_MODEL := None;
     LITELLM_PROVIDER := None |}.


Definition never_fails : llm_config -> option exn := fun _ => None.


Definition sample_inputs : Inputs :=
  {| travel_type := py "Leisure"; interests := py "History, Food";
     season := py "Summer"; duration := 7;
     budget := py "Luxury (Rs4000+)" |}.

Definition sample_crew : TripCrew :=
  {| crew_inputs := sample_inputs;
     crew_agents :=
       {| agents_llm := {| llm_args := groq_config (py "llama3-8b-8192") |} |} |}.

Definition city_list : crew_output :=
  {| raw := Some (VStr (py "1. Paris, France - ..."));
     result_attr := None; tasks_output := None; shown := py "CrewOutput" |}.

Definition city_ok : TripCrew -> result crew_output := fun _ => Ok city_list.

Definition city_fails : TripCrew -> result crew_output :=
  fun _ => Raise (ServiceError (py "rate limit reached")).

(** A failure whose text quotes an answer with a lone surrogate, the
    first half of an emoji. *)
Definition city_fails_unprintable : TripCrew -> result crew_output :=
  fun _ => Raise (ServiceError (py "invalid response: " ++ [0xD83D%N])).







Definition no_completion : pystr -> result pystr :=
  fun _ => Raise (ServiceError (py "no client")).

(** * Properties *)

(** ** Strings *)

Lemma startswith_app (v post : pystr) : startswith (v ++ post) v = true.
Proof.
  induction v as [|c v IH]; simpl; [reflexivity|].
  now rewrite N.eqb_refl, IH.
Qed.

Lemma startswith_prefix (s v : pystr) :
  startswith s v = true -> exists post, s = v ++ post.
Proof.
  revert s; induction v as [|c v IH]; intros s H.
  - now exists s.
  - destruct s as [|d s]; simpl in H; [discriminate|].
    apply andb_true_iff in H as [Hc Hs].
    apply N.eqb_eq in Hc; subst d.
    destruct (IH _ Hs) as [post ->].
    now exists post.
Qed.

Lemma contains_complete (s v : pystr) : substr v s -> contains s v = true.
Proof.
  intros (pre & post & ->).
  induction pre as [|c pre IH]; simpl.
  - destruct (v ++ post) eqn:E; simpl;
      rewrite <- E, startswith_app; reflexivity.
  - rewrite IH. apply orb_true_r.
Qed.

Lemma contains_sound (s v : pystr) : contains s v = true -> substr v s.
Proof.
  induction s as [|c s IH]; simpl; intros H.
  - rewrite orb_false_r in H.
    destruct (startswith_prefix _ _ H) as [post E].
    now exists [], post.
  - apply orb_true_iff in H as [H|H].
    + destruct (startswith_prefix _ _ H) as [post E].
      now exists [], post.
    + destruct (IH H) as (pre & post & ->).
      now exists (c :: pre), post.
Qed.

Lemma substr_refl (v : pystr) : substr v v.
Proof. exists [], []. now rewrite app_nil_r. Qed.

Lemma substr_app_l (v a b : pystr) : substr v a -> substr v (a ++ b).
Proof.
  intros (pre & post & ->). exists pre, (post ++ b).
  now rewrite <- !app_assoc.
Qed.

Lemma substr_app_r (v a b : pystr) : substr v b -> substr v (a ++ b).
Proof.
  intros (pre & post & ->). exists (a ++ pre), post.
  now rewrite <- !app_assoc.
Qed.

Lemma substr_trans (a b c : pystr) : substr a b -> substr b c -> substr a c.
Proof.
  intros (p1 & q1 & ->) (p2 & q2 & ->).
  exists (p2 ++ p1), (q1 ++ q2). now rewrite <- !app_assoc.
Qed.

Lemma substr_join (sep v : pystr) (parts : list pystr) :
  In v parts -> substr v (join sep parts).
Proof.
  induction parts as [|p rest IH]; [contradiction|].
  intros [->|Hin].
  - destruct rest; simpl; [apply substr_refl|].
    apply substr_app_l, substr_refl.
  - destruct rest as [|q rest]; [contradiction|].
    change (join sep (p :: q :: rest)) with (p ++ sep ++ join sep (q :: rest)).
    now apply substr_app_r, substr_app_r, IH.
Qed.

Lemma filter_idempotent (f : N -> bool) (s : pystr) :
  filter f (filter f s) = filter f s.
Proof.
  induction s as [|c s IH]; simpl; [reflexivity|].
  destruct (f c) eqn:E; simpl; [rewrite E|]; now rewrite ?IH.
Qed.

Lemma filter_all (f : N -> bool) (s : pystr) :
  forallb f s = true -> filter f s = s.
Proof.
  induction s as [|c s IH]; simpl; [reflexivity|].
  intros H. apply andb_true_iff in H as [-> H]. now rewrite IH.
Qed.

(** ** The matcher *)

Lemma orelse_some {R} (a b : option R) (x : R) :
  orelse a b = Some x -> a = Some x \/ b = Some x.
Proof. destruct a; simpl; auto. Qed.

(** A successful quantified class has consumed characters of the class
    and handed the rest to its continuation. *)
Lemma m_rep_consumes {R} (q p : N -> bool) (rest : pystr) :
  (forall c, p c = true -> q c = true) ->
  forall greedy lo hi prev pos (k : cursor -> option R) x,
    m_rep greedy p lo hi prev rest pos k = Some x ->
    exists w prev' rest',
      rest = w ++ rest' /\ forallb q w = true
      /\ k (Cursor prev' rest' (pos + List.length w)) = Some x.
Proof.
  intros Hpq. induction rest as [|c rest IH]; intros greedy lo hi prev pos k x H.
  - assert (Hhere : k (Cursor prev [] pos) = Some x).
    { simpl in H. destruct lo; [|discriminate].
      destruct greedy; simpl in H; [exact H|].
      apply orelse_some in H as [H|H]; [exact H|discriminate]. }
    exists [], prev, []. rewrite Nat.add_0_r. auto.
  - assert (Hcases :
        k (Cursor prev (c :: rest) pos) = Some x
        \/ (p c = true
            /\ m_rep greedy p (pred lo) (one_less hi) (Some c) rest (S pos) k
               = Some x)).
    { cbn [m_rep] in H.
      destruct (p c) eqn:Hc; cbn [andb] in H.
      - destruct (may_repeat hi).
        + destruct lo; [|now right].
          destruct greedy; apply orelse_some in H as [H|H]; auto.
        + destruct lo; [|discriminate].
          destruct greedy; apply orelse_some in H as [H|H];
            auto; discriminate.
      - destruct lo; [|discriminate].
        destruct greedy; apply orelse_some in H as [H|H];
          auto; discriminate. }
    destruct Hcases as [Hhere|[Hc Hmore]].
    + exists [], prev, (c :: rest). rewrite Nat.add_0_r. auto.
    + destruct (IH _ _ _ _ _ _ _ Hmore) as (w & prev' & rest' & -> & Hw & Hk).
      exists (c :: w), prev', rest'. cbn [forallb List.length app].
      rewrite (Hpq c Hc), Hw, Nat.add_succ_r. auto.
Qed.

(** A successful match has consumed characters of its classes. *)
Lemma m_consumes {R} (q : N -> bool) (r : re) :
  classes_within q r ->
  forall cur g (k : cursor -> option pystr -> option R) x,
    m r cur g k = Some x ->
    exists w cur' g',
      ahead cur = w ++ ahead cur'
      /\ at_pos cur' = at_pos cur + List.length w
      /\ forallb q w = true
      /\ k cur' g' = Some x.
Proof.
  induction r as [p|r1 IH1 r2 IH2|r1 IH1 r2 IH2|greedy lo hi p|r1 IH1|];
    intros Hq cur g k x H; cbn [m classes_within] in *.
  - destruct (ahead cur) as [|c rest] eqn:E; [discriminate|].
    destruct (p c) eqn:Hc; [|discriminate].
    exists [c], (Cursor (Some c) rest (S (at_pos cur))), g.
    cbn. rewrite (Hq c Hc), Nat.add_1_r. auto.
  - destruct Hq as [Hq1 Hq2].
    apply (IH1 Hq1) in H.
    destruct H as (w1 & cur1 & g1 & E1 & P1 & F1 & H1).
    apply (IH2 Hq2) in H1.
    destruct H1 as (w2 & cur2 & g2 & E2 & P2 & F2 & H2).
    exists (w1 ++ w2), cur2, g2.
    rewrite E1, E2, P2, P1, forallb_app, F1, F2, length_app, <- app_assoc.
    repeat split; auto. lia.
  - destruct Hq as [Hq1 Hq2].
    apply orelse_some in H as [H|H]; eauto.
  - eapply m_rep_consumes in H; [|exact Hq].
    destruct H as (w & prev' & rest' & E & F & Hk).
    exists w, (Cursor prev' rest' (at_pos cur + List.length w)), g. auto.
  - apply (IH1 Hq) in H. destruct H as (w & cur' & _ & E & P & F & Hk).
    eauto 8.
  - destruct (at_boundary cur); [|discriminate].
    exists [], cur, g. rewrite Nat.add_0_r. auto.
Qed.

(** The text a match captures consists of characters of the group's
    classes. *)
Lemma m_group_within {R} (q : N -> bool) (r : re) :
  groups_within q r ->
  forall cur g (k : cursor -> option pystr -> option R) x,
    group_within q g ->
    m r cur g k = Some x ->
    exists cur' g', group_within q g' /\ k cur' g' = Some x.
Proof.
  induction r as [p|r1 IH1 r2 IH2|r1 IH1 r2 IH2|greedy lo hi p|r1 IH1|];
    intros Hq cur g k x Hg H; cbn [m groups_within] in *.
  - destruct (ahead cur) as [|c rest]; [discriminate|].
    destruct (p c); [eauto|discriminate].
  - destruct Hq as [Hq1 Hq2].
    apply (IH1 Hq1 _ _ _ _ Hg) in H.
    destruct H as (cur1 & g1 & Hg1 & H1).
    eauto.
  - destruct Hq as [Hq1 Hq2].
    apply orelse_some in H as [H|H]; eauto.
  - eapply m_rep_consumes with (q := fun _ => true) in H; [|reflexivity].
    destruct H as (w & prev' & rest' & _ & _ & Hk).
    eauto.
  - eapply m_consumes in H; [|exact Hq].
    destruct H as (w & cur' & _ & E & P & F & Hk).
    exists cur'. eexists. split; [|exact Hk].
    cbn [group_within].
    replace (at_pos cur' - at_pos cur) with (List.length w + 0) by lia.
    now rewrite E, firstn_app_2, firstn_O, app_nil_r.
  - destruct (at_boundary cur); [eauto|discriminate].
Qed.

Lemma match_at_group_within (q : N -> bool) (r : re) (cur : cursor)
    (e : nat) (g : option pystr) :
  groups_within q r -> match_at r cur = Some (e, g) -> group_within q g.
Proof.
  intros Hq H. unfold match_at in H.
  eapply m_group_within with (q := q) in H; [|exact Hq|exact I].
  destruct H as (cur' & g' & Hg & [= _ <-]).
  exact Hg.
Qed.

Lemma scan_within (q : N -> bool) (r : re) (rest : pystr) :
  groups_within q r ->
  forall prev pos skip, Forall (piece_within q) (scan r prev rest pos skip).
Proof.
  intros Hq. induction rest as [|c rest IH]; intros prev pos skip.
  - cbn [scan]. destruct skip; [|constructor].
    destruct (match_at r (Cursor prev [] pos)) as [[e g]|] eqn:E;
      constructor; [|constructor].
    eapply match_at_group_within; eauto.
  - cbn [scan]. destruct skip; [|apply IH].
    destruct (match_at r (Cursor prev (c :: rest) pos)) as [[e g]|] eqn:E;
      constructor; try apply IH; [|exact I].
    eapply match_at_group_within; eauto.
Qed.

(** Every string [findall] returns consists of characters of the
    pattern's group. *)
Lemma findall_within (q : N -> bool) (r : re) (text : pystr) :
  groups_within q r ->
  Forall (fun t => forallb q t = true) (findall r text).
Proof.
  intros Hq. unfold findall.
  pose proof (@scan_within q r text Hq None 0 0) as H.
  induction H as [|pc pcs Hpc _ IH]; [constructor|].
  cbn [flat_map]. destruct pc as [c|[t|]]; cbn [app]; auto.
Qed.

(** ** [clean_surrogates] *)

(** Searching for a one-character class drops the characters of the
    class and keeps the others, wherever the search stands. *)
Lemma sub_class_scan (p : N -> bool) (s : pystr) (prev : option N) (pos : nat) :
  flat_map (fun pc => match pc with Matched _ => [] | Skipped c => [c] end)
           (scan (Cls p) prev s pos 0)
  = filter (fun c => negb (p c)) s.
Proof.
  revert prev pos; induction s as [|c s IH]; intros prev pos.
  - reflexivity.
  - cbn [scan match_at m ahead at_pos].
    destruct (p c) eqn:E; cbn [flat_map filter negb app]; rewrite E.
    + replace (S pos - pos - 1) with 0 by lia. apply IH.
    + cbn [negb]. f_equal. apply IH.
Qed.

Lemma sub_surrogates (s : pystr) :
  sub surrogates [] s = filter not_surrogate s.
Proof. apply sub_class_scan. Qed.

(** C10. [clean_surrogates] is idempotent; on a string it removes
    exactly the code points U+D800 to U+DFFF, so a string without them
    is returned unchanged; a value that is not a string is returned
    unchanged. *)
Theorem clean_surrogates_idempotent :
  (forall x, clean_surrogates (clean_surrogates x) = clean_surrogates x)
  /\ (forall s, clean_surrogates (VStr s) = VStr (filter not_surrogate s))
  /\ (forall s, forallb not_surrogate s = true ->
                clean_surrogates (VStr s) = VStr s)
  /\ (forall x, (forall s, x <> VStr s) -> clean_surrogates x = x).
Proof.
  repeat split.
  - intros [s| |]; cbn [clean_surrogates]; try reflexivity.
    now rewrite !sub_surrogates, filter_idempotent.
  - intros s. cbn [clean_surrogates]. now rewrite sub_surrogates.
  - intros s H. cbn [clean_surrogates].
    now rewrite sub_surrogates, filter_all.
  - intros [s| |] H; try reflexivity. now destruct (H s).
Qed.

(** ** [extract_first_city] *)

Lemma extract_first_city_str (text : pystr) :
  extract_first_city (VStr text)
  = Ok (try_patterns patterns (sub surrogates [] text)).
Proof. reflexivity. Qed.

Lemma first_accepted_app (xs ys : list pystr) :
  first_accepted (xs ++ ys) = orelse (first_accepted xs) (first_accepted ys).
Proof.
  induction xs as [|x xs IH]; simpl; [reflexivity|].
  now destruct (accepted (strip x)).
Qed.

Lemma first_accepted_accepted (ms : list pystr) (city : pystr) :
  first_accepted ms = Some city -> accepted city = true.
Proof.
  induction ms as [|x ms IH]; simpl; [discriminate|].
  destruct (accepted (strip x)) eqn:E; [|exact IH].
  now intros [= <-].
Qed.

Lemma try_patterns_candidates (ps : list re) (text : pystr) :
  try_patterns ps text
  = match first_accepted (candidates ps text) with
    | Some city => city
    | None => default_city
    end.
Proof.
  induction ps as [|p ps IH]; [reflexivity|].
  cbn [try_patterns candidates flat_map].
  rewrite first_accepted_app.
  destruct (findall p text) as [|x xs] eqn:E; [exact IH|].
  destruct (first_accepted (x :: xs)); [reflexivity|exact IH].
Qed.

Lemma first_accepted_none_all (ps : list re) (text : pystr) :
  (forall p, In p ps -> first_accepted (findall p text) = None) ->
  first_accepted (candidates ps text) = None.
Proof.
  induction ps as [|p ps IH]; intros H; [reflexivity|].
  cbn [candidates flat_map]. rewrite first_accepted_app.
  rewrite (H p (or_introl eq_refl)). apply IH.
  intros q Hq. apply H. now right.
Qed.

Lemma accepted_long (city : pystr) :
  accepted city = true -> 2 < List.length city.
Proof.
  unfold accepted. intros H.
  repeat (apply andb_true_iff in H as [H _]).
  now apply Nat.ltb_lt.
Qed.

Lemma accepted_not_city (city : pystr) :
  accepted city = true -> endswith (lower city) (py "city") = false.
Proof.
  unfold accepted. intros H.
  apply andb_true_iff in H as [_ H].
  now apply negb_true_iff.
Qed.

Lemma default_city_accepted : accepted default_city = true.
Proof. vm_compute. reflexivity. Qed.

Lemma try_patterns_accepted (ps : list re) (text : pystr) :
  accepted (try_patterns ps text) = true.
Proof.
  rewrite try_patterns_candidates.
  destruct (first_accepted (candidates ps text)) eqn:E.
  - eapply first_accepted_accepted, E.
  - apply default_city_accepted.
Qed.

(** *** The candidates are letters and white space *)

Lemma upper_alpha_space (c : N) : isupper_ascii c = true -> alpha_space c = true.
Proof. unfold alpha_space. intros ->. now rewrite orb_true_r. Qed.

Lemma patterns_capture_letters : Forall (groups_within alpha_space) patterns.
Proof.
  repeat constructor; cbn; auto using upper_alpha_space.
Qed.

Lemma dropwhile_within (q p : N -> bool) (s : pystr) :
  forallb q s = true -> forallb q (dropwhile p s) = true.
Proof.
  induction s as [|c s IH]; [reflexivity|].
  intros H. cbn [dropwhile]. destruct (p c); [|exact H].
  apply IH. cbn in H. now apply andb_true_iff in H.
Qed.

Lemma rev_within (q : N -> bool) (s : pystr) :
  forallb q s = true -> forallb q (rev s) = true.
Proof.
  rewrite !forallb_forall. intros H c Hc. apply H. now apply in_rev.
Qed.

Lemma strip_within (q : N -> bool) (s : pystr) :
  forallb q s = true -> forallb q (strip s) = true.
Proof.
  intros H. unfold strip.
  auto using rev_within, dropwhile_within.
Qed.

Lemma alpha_space_plain (c : N) :
  alpha_space c = true -> ((c <? 128)%N || isspace c) = true.
Proof.
  unfold alpha_space, islower_ascii, isupper_ascii, in_range.
  intros H. destruct (isspace c); [apply orb_true_r|].
  rewrite orb_false_r in *. apply N.ltb_lt.
  apply orb_true_iff in H as [H|H];
    apply andb_true_iff in H as [_ H]; apply N.leb_le in H; lia.
Qed.

(** On a candidate [str.lower] is the ASCII map: the parameter
    [lower_high] is never consulted. *)
Lemma lower_letters (s : pystr) :
  forallb alpha_space s = true -> lower s = map lower_ascii s.
Proof.
  intros H. unfold lower.
  replace (forallb (fun c => (c <? 128)%N || isspace c) s) with true;
    [reflexivity|].
  symmetry. rewrite forallb_forall in *. auto using alpha_space_plain.
Qed.

Lemma candidates_letters (text : pystr) :
  Forall (fun t => forallb alpha_space t = true) (candidates patterns text).
Proof.
  unfold candidates.
  induction patterns_capture_letters as [|p ps Hp _ IH]; [constructor|].
  cbn [flat_map]. apply Forall_app. split; [|exact IH].
  now apply findall_within.
Qed.

(** Whatever the interpreter's tables: on ["1. Travel: - Rome, Italy"]
    the numbered-item rule matches, its only candidate is a stop word,
    and the result comes from the bullet rule. *)
Lemma travel_rejected_rome_returned :
  findall numbered_item (py "1. Travel: - Rome, Italy") = [py "Travel"]
  /\ first_accepted [py "Travel"] = None
  /\ extract_first_city (VStr (py "1. Travel: - Rome, Italy"))
     = Ok (py "Rome").
Proof. repeat split; vm_compute; reflexivity. Qed.

(** C3, as the code has it. The rules are tried in order and the first
    rule with an accepted candidate decides: its first accepted candidate
    is returned. A rule whose matches are all rejected does not end the
    search; the result is the first accepted candidate over all rules,
    and the default only when there is none. *)
Theorem extract_first_city_rule_order (text : pystr) :
  extract_first_city (VStr text)
  = Ok (match first_accepted (candidates patterns (sub surrogates [] text)) with
        | Some city => city
        | None => default_city
        end)
  /\ (forall before p after city,
        patterns = before ++ p :: after ->
        (forall q, In q before ->
           first_accepted (findall q (sub surrogates [] text)) = None) ->
        first_accepted (findall p (sub surrogates [] text)) = Some city ->
        extract_first_city (VStr text) = Ok city).
Proof.
  rewrite extract_first_city_str, try_patterns_candidates.
  split; [reflexivity|].
  intros before p after city -> Hbefore Hp.
  unfold candidates. rewrite flat_map_app. cbn [flat_map].
  rewrite !first_accepted_app.
  fold (candidates before (sub surrogates [] text)).
  now rewrite (first_accepted_none_all _ _ Hbefore), Hp.
Qed.

(** C4. [extract_first_city] returns on every string, the result is
    never empty, it is ["Paris"] when no rule yields an accepted
    candidate, and in particular on the empty string and on
    ["random text with no structure"]. *)
Theorem extract_first_city_total :
  (forall text, exists city,
      extract_first_city (VStr text) = Ok city
      /\ city <> []
      /\ ((forall p, In p patterns ->
             first_accepted (findall p (sub surrogates [] text)) = None) ->
          city = py "Paris"))
  /\ extract_first_city (VStr []) = Ok (py "Paris")
  /\ extract_first_city (VStr (py "random text with no structure"))
     = Ok (py "Paris").
Proof.
  split; [|split; vm_compute; reflexivity].
  intros text. eexists. split; [apply extract_first_city_str|]. split.
  - intros E.
    pose proof (accepted_long _ (try_patterns_accepted patterns
                                   (sub surrogates [] text))) as H.
    rewrite E in H. simpl in H. lia.
  - intros H. rewrite try_patterns_candidates.
    now rewrite (first_accepted_none_all _ _ H).
Qed.

(** C8. On ["1. Paris, France - ..."] the result is ["Paris"]. *)
Theorem extract_first_city_paris_france :
  extract_first_city (VStr (py "1. Paris, France - ...")) = Ok (py "Paris").
Proof. vm_compute. reflexivity. Qed.

(** C9. On every text the returned name is longer than two characters
    and does not end in "city", whatever the case of its letters: it is
    either an accepted candidate or the default, which passes the same
    filters. *)
Theorem extract_first_city_postcondition (text : pystr) :
  exists city,
    extract_first_city (VStr text) = Ok city
    /\ 2 < List.length city
    /\ endswith (lower city) (py "city") = false
    /\ accepted city = true.
Proof.
  eexists. split; [apply extract_first_city_str|].
  pose proof (try_patterns_accepted patterns (sub surrogates [] text)) as H.
  auto using accepted_long, accepted_not_city.
Qed.

(** ** [_initialize_llm] *)

Lemma try_models_first_success (config : pystr -> llm_config)
    (models : list pystr) (calls : list llm_config) :
  try_models config models calls = first_success (map config models) calls.
Proof.
  revert calls; induction models as [|mdl models IH]; intros calls;
    [reflexivity|].
  cbn [try_models first_success map]. unfold bind, LLM.
  destruct (LLM_raises (config mdl)); [apply IH|reflexivity].
Qed.

Lemma first_success_app (xs ys : list llm_config) (calls : list llm_config) :
  first_success (xs ++ ys) calls
  = match first_success xs calls with
    | (Some l, calls') => (Some l, calls')
    | (None, calls') => first_success ys calls'
    end.
Proof.
  revert calls; induction xs as [|x xs IH]; intros calls; [reflexivity|].
  cbn [first_success app]. unfold bind, LLM.
  destruct (LLM_raises x); [apply IH|reflexivity].
Qed.

Lemma attempt_groq_first_success (calls : list llm_config) :
  attempt_groq calls = first_success groq_specs calls.
Proof.
  unfold attempt_groq, groq_specs.
  destruct (truthy (GROQ_API_KEY env)); [|reflexivity].
  cbn [first_success]. unfold bind, LLM.
  destruct (LLM_raises _); [apply try_models_first_success|reflexivity].
Qed.

Lemma attempt_huggingface_first_success (calls : list llm_config) :
  attempt_huggingface calls = first_success huggingface_specs calls.
Proof.
  unfold attempt_huggingface, huggingface_specs.
  destruct (truthy (HUGGINGFACE_API_KEY env)); [|reflexivity].
  cbn [first_success]. unfold bind, LLM.
  destruct (LLM_raises _); [apply try_models_first_success|reflexivity].
Qed.

Lemma attempt_openai_first_success (calls : list llm_config) :
  attempt_openai calls = first_success openai_specs calls.
Proof.
  unfold attempt_openai, openai_specs.
  destruct (truthy (OPENAI_API_KEY env)); [|reflexivity].
  cbn [first_success]. unfold bind, LLM.
  now destruct (LLM_raises _).
Qed.

(** The nested blocks of the source are one pass over the ordered
    specs. *)
Lemma initialize_llm_first_success (calls : list llm_config) :
  _initialize_llm calls
  = match first_success provider_specs calls with
    | (Some l, calls') => (Ok l, calls')
    | (None, calls') => (Raise (RuntimeError no_llm_message), calls')
    end.
Proof.
  unfold provider_specs, _initialize_llm, bind.
  rewrite first_success_app, attempt_groq_first_success.
  destruct (first_success groq_specs calls) as [[l|] calls1]; [reflexivity|].
  rewrite first_success_app, attempt_huggingface_first_success.
  destruct (first_success huggingface_specs calls1) as [[l|] calls2];
    [reflexivity|].
  rewrite attempt_openai_first_success.
  now destruct (first_success openai_specs calls2) as [[l|] calls3].
Qed.





(** ** Standard output *)

Lemma plain_digits (u : Decimal.uint) :
  forallb plain (py (NilEmpty.string_of_uint u)) = true.
Proof. induction u; cbn; auto. Qed.

Lemma plain_number (u : Decimal.uint) :
  forallb plain (py (NilZero.string_of_uint u)) = true.
Proof.
  destruct u; first [ reflexivity | exact (plain_digits _) ].
Qed.

Lemma plain_str_of_int (n : Z) : forallb plain (str_of_int n) = true.
Proof.
  unfold str_of_int, NilZero.string_of_int.
  destruct (Z.to_int n) as [u|u]; [apply plain_number|].
  change (forallb plain (45%N :: py (NilZero.string_of_uint u)) = true).
  cbn [forallb]. now rewrite plain_number.
Qed.

Lemma plain_not_surrogate (c : N) : plain c = true -> not_surrogate c = true.
Proof.
  unfold plain, not_surrogate, is_surrogate, isspace, in_range. intros H.
  apply negb_true_iff, andb_false_iff.
  destruct (55296 <=? c)%N eqn:E; [right|now left].
  apply N.leb_le in E. apply N.leb_gt.
  repeat (apply orb_true_iff in H as [H|H]);
    repeat match type of H with
           | (_ && _) = true => apply andb_true_iff in H as [_ H]
           | (_ <=? _)%N = true => apply N.leb_le in H
           | (_ <? _)%N = true => apply N.ltb_lt in H
           | (_ =? _)%N = true => apply N.eqb_eq in H
           end; lia.
Qed.

Lemma letters_plain (s : pystr) :
  forallb alpha_space s = true -> forallb plain s = true.
Proof.
  rewrite !forallb_forall. intros H c Hc.
  now apply alpha_space_plain, H.
Qed.

(** A plain text has no surrogate. *)
Lemma plain_printable (s : pystr) :
  forallb plain s = true -> existsb is_surrogate s = false.
Proof.
  induction s as [|c s IH]; [reflexivity|].
  cbn. intros H. apply andb_true_iff in H as [Hc Hs].
  rewrite (IH Hs), orb_false_r.
  apply plain_not_surrogate in Hc. now apply negb_true_iff in Hc.
Qed.

Lemma hex_digit_plain (d : N) : (d < 16)%N -> plain (hex_digit d) = true.
Proof.
  intros H. unfold plain, hex_digit. apply orb_true_iff. left.
  apply N.ltb_lt. destruct (d <? 10)%N; lia.
Qed.

Lemma hex4_plain (c : N) : forallb plain (hex4 c) = true.
Proof.
  unfold hex4. cbn [map forallb].
  rewrite !hex_digit_plain; [reflexivity| | | |]; now apply N.mod_lt.
Qed.

Lemma encode_error_message_plain (start : nat) (c : N) (len : nat) :
  forallb plain (encode_error_message start c len) = true.
Proof.
  unfold encode_error_message.
  destruct len as [|[|len]];
    rewrite !forallb_app, ?hex4_plain, !plain_str_of_int; reflexivity.
Qed.

Lemma surrogate_run_none (text : pystr) (pos : nat) :
  existsb is_surrogate text = false -> surrogate_run text pos = None.
Proof.
  revert pos; induction text as [|c text IH]; intros pos; [reflexivity|].
  cbn. destruct (is_surrogate c); [discriminate|]. apply IH.
Qed.

Lemma surrogate_run_some (text : pystr) (pos : nat) :
  existsb is_surrogate text = true ->
  exists start c len, surrogate_run text pos = Some (start, c, len).
Proof.
  revert pos; induction text as [|c text IH]; intros pos; [discriminate|].
  cbn. destruct (is_surrogate c); [eauto|]. apply IH.
Qed.

(** A text without a surrogate is written. *)
Lemma print_writes (text : pystr) :
  existsb is_surrogate text = false -> print text = Ok tt.
Proof.
  intros H. unfold print, encode_error. now rewrite surrogate_run_none.
Qed.

(** A text with a surrogate is refused, with the codec's exception;
    the text of that exception is plain. *)
Lemma print_refuses (text : pystr) :
  existsb is_surrogate text = true ->
  exists msg,
    encode_error text = Some msg
    /\ print text = Raise (UnicodeEncodeError msg)
    /\ forallb plain msg = true.
Proof.
  intros H. unfold print, encode_error.
  destruct (surrogate_run_some text 0 H) as (start & c & len & ->).
  eexists. split; [reflexivity|]. split; [reflexivity|].
  apply encode_error_message_plain.
Qed.


Lemma printable_app (a b : pystr) :
  existsb is_surrogate a = false -> existsb is_surrogate b = false ->
  existsb is_surrogate (a ++ b) = false.
Proof. intros Ha Hb. now rewrite existsb_app, Ha, Hb. Qed.

(** ** [TripCrew.run] *)

Lemma first_accepted_within (q : N -> bool) (ms : list pystr) (city : pystr) :
  Forall (fun t => forallb q t = true) ms ->
  first_accepted ms = Some city -> forallb q city = true.
Proof.
  intros H. induction H as [|t ms Ht _ IH]; [discriminate|].
  cbn [first_accepted].
  destruct (accepted (strip t)); [|exact IH].
  intros [= <-]. now apply strip_within.
Qed.

Lemma try_patterns_letters (text : pystr) :
  forallb alpha_space (try_patterns patterns text) = true.
Proof.
  rewrite try_patterns_candidates.
  destruct (first_accepted _) as [city|] eqn:E; [|reflexivity].
  eapply first_accepted_within; eauto using candidates_letters.
Qed.

(** Whatever the crew handed back, an extracted city is letters and
    white space. *)
Lemma extract_first_city_letters (v : pyval) (city : pystr) :
  extract_first_city v = Ok city -> forallb plain city = true.
Proof.
  destruct v as [s|s|s]; cbn; intros [= <-];
    apply letters_plain, try_patterns_letters.
Qed.



(** The two lines that name the selected city are always written. *)
Lemma city_lines_written (city : pystr) :
  forallb plain city = true ->
  print ([0x2705%N] ++ py " Selected city for detailed planning: " ++ city)
  = Ok tt
  /\ print ([0x1F50D%N] ++ py " Researching " ++ city ++ py "...") = Ok tt.
Proof.
  intros H. apply plain_printable in H.
  split; apply print_writes; repeat apply printable_app;
    first [exact H | reflexivity].
Qed.



(** The body up to the second crew, when the city crew returned a
    result that can be read and written. *)
Lemma run_body_after_city (self : TripCrew) (o : crew_output)
    (city_output_raw : pyval) (city : pystr) :
  city_kickoff self = Ok o ->
  city_output_raw_of o = Ok city_output_raw ->
  existsb is_surrogate (str_of city_output_raw) = false ->
  extract_first_city city_output_raw = Ok city ->
  run_body self
  = (detailed_results_object <~ trip_kickoff self city ;;
     d <~ collect_details detailed_results_object ;;
     Ok {| city_selection := clean_surrogates city_output_raw;
           city_research := clean_surrogates (research_output d);
           itinerary := clean_surrogates (itinerary_output d);
           budget_plan := clean_surrogates (budget_output d) |}).
Proof.
  intros Hcity Hraw Hprint Hextract. unfold run_body.
  rewrite print_writes by reflexivity. cbn [bind_result].
  rewrite Hcity; cbn [bind_result]. rewrite Hraw; cbn [bind_result].
  rewrite print_writes by (apply printable_app; [reflexivity|exact Hprint]).
  cbn [bind_result]. rewrite Hextract; cbn [bind_result].
  destruct (city_lines_written city
              (extract_first_city_letters _ Hextract)) as [-> ->].
  reflexivity.
Qed.


(** The [except] block: the error dict when the text of the exception
    can be written, else the codec's exception leaves [run]. *)
Lemma run_handles (self : TripCrew) (e : exn) :
  run_body self = Raise e ->
  if existsb is_surrogate (exn_msg e)
  then exists msg,
         encode_error (error_line e) = Some msg
         /\ run self = Raise (UnicodeEncodeError msg)
  else run self = Ok (error_plan e).
Proof.
  intros H. unfold run, try_except. rewrite H.
  destruct (existsb is_surrogate (exn_msg e)) eqn:E.
  - destruct (print_refuses (error_line e)) as (msg & Hm & -> & _).
    + unfold error_line. rewrite !existsb_app, E. now rewrite !orb_true_r.
    + now exists msg.
  - rewrite print_writes; [reflexivity|].
    unfold error_line. repeat apply printable_app; first [exact E|reflexivity].
Qed.

Lemma run_handles_plain (self : TripCrew) (e : exn) :
  run_body self = Raise e -> forallb plain (exn_msg e) = true ->
  run self = Ok (error_plan e).
Proof.
  intros H Hp. pose proof (run_handles self H) as R.
  now rewrite (plain_printable _ Hp) in R.
Qed.

Lemma run_body_city_raises (self : TripCrew) (e : exn) :
  city_kickoff self = Raise e -> run_body self = Raise e.
Proof.
  intros H. unfold run_body.
  rewrite print_writes by reflexivity. cbn [bind_result]. now rewrite H.
Qed.








(** The city result is printed before it is cleaned: with a surrogate
    in it the print fails and the [except] block returns the error dict
    with the codec's text. *)
Lemma run_unprintable_city_result (self : TripCrew) (o : crew_output)
    (city_output_raw : pyval) :
  city_kickoff self = Ok o ->
  city_output_raw_of o = Ok city_output_raw ->
  existsb is_surrogate (str_of city_output_raw) = true ->
  exists msg,
    encode_error (py "City selection raw output: " ++ str_of city_output_raw)
    = Some msg
    /\ run self = Ok (error_plan (UnicodeEncodeError msg)).
Proof.
  intros Hcity Hraw Hs.
  destruct (print_refuses (py "City selection raw output: "
                           ++ str_of city_output_raw))
    as (msg & Hm & Hp & Hplain).
  { rewrite existsb_app, Hs. apply orb_true_r. }
  exists msg. split; [exact Hm|].
  apply run_handles_plain; [|exact Hplain].
  unfold run_body. rewrite print_writes by reflexivity. cbn [bind_result].
  rewrite Hcity; cbn [bind_result]. rewrite Hraw; cbn [bind_result].
  now rewrite Hp.
Qed.



(** ** The prompts *)

(** Finds an interpolated value in a prompt: a prompt is a tree of
    concatenations with the value at one of its leaves. *)
Ltac find_sub :=
  lazymatch goal with
  | |- substr ?v ?v => apply substr_refl
  | |- substr ?v (?a ++ ?b) =>
      first [ apply substr_app_l; find_sub | apply substr_app_r; find_sub ]
  end.

Ltac interpolated :=
  apply contains_complete;
  unfold build, city_recommendations_prompt, destination_research_prompt,
    itinerary_prompt, budget_plan_prompt, lines;
  cbn [join travel_type interests season duration budget];
  find_sub.

(** [get_groq_response] turns a failed completion into text. *)
Lemma get_groq_response_failure (prompt : pystr) (e : exn) :
  chat_completion prompt = Raise e ->
  get_groq_response prompt = py "Error: " ++ exn_msg e.
Proof. intros H. unfold get_groq_response. now rewrite H. Qed.

(** C7, as the code has it. The city-selection prompt contains every
    preference (travel type, the joined interests and so each selected
    interest, season, duration, budget). The later prompts contain the
    city and the preferences their text names: research and itinerary
    the travel type, the interests and the duration; budget the duration
    and the budget. *)
Theorem build_interpolates (travel : pystr) (selected : list pystr)
    (when : pystr) (days : Z) (range : pystr) (inputs : Inputs)
    (city : pystr) :
  form_inputs travel selected when days range = Some inputs ->
  (contains (build CitySelection inputs city) travel = true
   /\ contains (build CitySelection inputs city) (join (py ", ") selected) = true
   /\ (forall i, In i selected ->
               contains (build CitySelection inputs city) i = true)
   /\ contains (build CitySelection inputs city) when = true
   /\ contains (build CitySelection inputs city) (str_of_int days) = true
   /\ contains (build CitySelection inputs city) range = true)
  /\ (contains (build Research inputs city) city = true
      /\ contains (build Research inputs city) travel = true
      /\ contains (build Research inputs city) (join (py ", ") selected) = true
      /\ contains (build Research inputs city) (str_of_int days) = true)
  /\ (contains (build Itinerary inputs city) city = true
      /\ contains (build Itinerary inputs city) travel = true
      /\ contains (build Itinerary inputs city) (join (py ", ") selected) = true
      /\ contains (build Itinerary inputs city) (str_of_int days) = true)
  /\ (contains (build Budget inputs city) city = true
      /\ contains (build Budget inputs city) (str_of_int days) = true
      /\ contains (build Budget inputs city) range = true).
Proof.
  intros H. unfold form_inputs in H.
  assert (E : inputs = {| travel_type := travel;
                          interests := join (py ", ") selected;
                          season := when; duration := days;
                          budget := range |})
    by (destruct selected; [discriminate|now injection H]).
  subst inputs. clear H.
  assert (Hjoined : contains (build CitySelection
                                {| travel_type := travel;
                                   interests := join (py ", ") selected;
                                   season := when; duration := days;
                                   budget := range |} city)
                      (join (py ", ") selected) = true) by interpolated.
  repeat split; try interpolated.
  intros i Hi. apply contains_complete.
  eapply substr_trans;
    [apply substr_join, Hi | apply contains_sound, Hjoined].
Qed.

End TripSmart.

(** * The tables of the interpreter and [extract_first_city] *)

Lemma accepted_any_lower (lower1 lower2 : pystr -> pystr) (city : pystr) :
  forallb alpha_space city = true ->
  accepted lower1 city = accepted lower2 city.
Proof.
  intros H. unfold accepted. now rewrite !lower_letters.
Qed.

Lemma first_accepted_any_lower (lower1 lower2 : pystr -> pystr)
    (ms : list pystr) :
  Forall (fun t => forallb alpha_space t = true) ms ->
  first_accepted lower1 ms = first_accepted lower2 ms.
Proof.
  induction 1 as [|mt ms Hmt _ IH]; [reflexivity|].
  cbn [first_accepted].
  rewrite (accepted_any_lower lower1 lower2 (strip mt))
    by now apply strip_within.
  now rewrite IH.
Qed.

(** The result of [extract_first_city] does not depend on how the
    interpreter lowers characters outside ASCII: every candidate is made
    of ASCII letters and white space. *)
Lemma extract_first_city_any_lower (isalnum_high : N -> bool)
    (lower1 lower2 : pystr -> pystr) (text : pystr) :
  extract_first_city isalnum_high lower1 (VStr text)
  = extract_first_city isalnum_high lower2 (VStr text).
Proof.
  rewrite !extract_first_city_str, !try_patterns_candidates.
  now rewrite (first_accepted_any_lower lower1 lower2
                 (candidates_letters isalnum_high _)).
Qed.

(** * Runs on sample inputs *)

(** A string without surrogates and a dict come back unchanged. *)
Lemma clean_surrogates_unchanged :
  clean_surrogates ascii_alnum (VStr (py "Paris")) = VStr (py "Paris")
  /\ clean_surrogates ascii_alnum (VDict (py "{}")) = VDict (py "{}").
Proof.
  destruct (clean_surrogates_idempotent ascii_alnum) as (_ & _ & Hs & Hx).
  split.
  - apply Hs. reflexivity.
  - apply Hx. intros s. discriminate.
Defined.

(** The numbered-item rule matches ["1. Travel:"] and its only candidate
    is a stop word; the bullet rule is tried next and gives ["Rome"]. *)
Lemma rejected_rule_falls_through :
  findall ascii_alnum numbered_item (py "1. Travel: - Rome, Italy")
  = [py "Travel"]
  /\ first_accepted ascii_lower [py "Travel"] = None
  /\ extract_first_city ascii_alnum ascii_lower
       (VStr (py "1. Travel: - Rome, Italy")) = Ok (py "Rome")
  /\ py "Rome" <> default_city.
Proof.
  destruct (travel_rejected_rome_returned ascii_alnum ascii_lower)
    as (Hmatch & Hrejected & Hresult).
  repeat split; try assumption.
  vm_compute. discriminate.
Qed.

Lemma bullet_rule_decides :
  extract_first_city ascii_alnum ascii_lower
    (VStr (py "1. Travel: - Rome, Italy")) = Ok (py "Rome").
Proof.
  apply (proj2 (extract_first_city_rule_order ascii_alnum ascii_lower
                  (py "1. Travel: - Rome, Italy"))
           [numbered_item] bullet_item
           [before_punctuation; capitalized_words] (py "Rome")).
  - reflexivity.
  - intros q [<-|[]]. vm_compute. reflexivity.
  - vm_compute. reflexivity.
Defined.

Lemma no_structure_gives_default :
  exists city,
    extract_first_city ascii_alnum ascii_lower
      (VStr (py "random text with no structure")) = Ok city
    /\ city = py "Paris".
Proof.
  destruct (proj1 (extract_first_city_total ascii_alnum ascii_lower)
              (py "random text with no structure")) as (city & E & _ & H).
  exists city. split; [exact E|]. apply H.
  intros p [<-|[<-|[<-|[<-|[]]]]]; vm_compute; reflexivity.
Defined.










(** The research prompt has neither the season nor the budget, the
    itinerary prompt neither, and the budget prompt none of travel type,
    interests and season. *)
Lemma later_prompts_omit_preferences :
  form_inputs (py "Leisure") [py "History"; py "Food"] (py "Summer") 7
    (py "Luxury (Rs4000+)") = Some sample_inputs
  /\ contains (build Research sample_inputs (py "Paris")) (py "Summer") = false
  /\ contains (build Research sample_inputs (py "Paris"))
       (py "Luxury (Rs4000+)") = false
  /\ contains (build Itinerary sample_inputs (py "Paris")) (py "Summer") = false
  /\ contains (build Itinerary sample_inputs (py "Paris"))
       (py "Luxury (Rs4000+)") = false
  /\ contains (build Budget sample_inputs (py "Paris")) (py "Leisure") = false
  /\ contains (build Budget sample_inputs (py "Paris"))
       (py "History, Food") = false
  /\ contains (build Budget sample_inputs (py "Paris")) (py "Summer") = false.
Proof. repeat split; vm_compute; reflexivity. Qed.

Lemma sample_prompts_interpolate :
  contains (build CitySelection sample_inputs (py "Paris")) (py "Summer") = true
  /\ contains (build Research sample_inputs (py "Paris")) (py "Paris") = true
  /\ contains (build Budget sample_inputs (py "Paris"))
       (py "Luxury (Rs4000+)") = true.
Proof.
  destruct (@build_interpolates (py "Leisure") [py "History"; py "Food"]
              (py "Summer") 7 (py "Luxury (Rs4000+)") sample_inputs
              (py "Paris") eq_refl)
    as ((_ & _ & _ & H1 & _) & (H2 & _) & _ & (_ & _ & H3)).
  repeat split; assumption.
Defined.

(** * Further properties of the sources *)

(** ** [_initialize_llm]: the calls it makes *)

Section Resolver.

Variable env : environ.
Variable LLM_raises : llm_config -> option exn.

(** The calls one pass makes: a prefix of the specs, all but a
    successful last one failing. *)
Lemma first_success_trace (specs calls : list llm_config) :
  exists tried rest,
    specs = tried ++ rest
    /\ snd (first_success LLM_raises specs calls) = calls ++ tried
    /\ match fst (first_success LLM_raises specs calls) with
       | Some l =>
           exists before,
             tried = before ++ [llm_args l]
             /\ (forall a, In a before -> LLM_raises a <> None)
             /\ LLM_raises (llm_args l) = None
       | None =>
           rest = [] /\ (forall a, In a tried -> LLM_raises a <> None)
       end.
Proof.
  revert calls; induction specs as [|s specs IH]; intros calls.
  - exists [], []. cbn. rewrite app_nil_r. repeat split; auto.
  - cbn [first_success]. unfold bind, LLM.
    destruct (LLM_raises s) eqn:E.
    + destruct (IH (calls ++ [s])) as (tried & rest & -> & Hcalls & Hres).
      exists (s :: tried), rest. split; [reflexivity|].
      split; [now rewrite Hcalls, <- app_assoc|].
      destruct (fst (first_success LLM_raises (tried ++ rest) (calls ++ [s])))
        as [l|].
      * destruct Hres as (before & -> & Hb & Hl).
        exists (s :: before). repeat split; auto.
        intros a [<-|Ha]; [congruence|auto].
      * destruct Hres as [-> Hall]. split; [reflexivity|].
        intros a [<-|Ha]; [congruence|auto].
    + exists [s], specs. cbn. repeat split.
      exists []. repeat split; auto; intros a [].
Qed.


(** The credential a call is made with: the Groq models rely on the
    environment, the others are handed their key. *)
Definition credential_of (args : llm_config) : option pystr :=
  match custom_llm_provider args with
  | Some _ => GROQ_API_KEY env
  | None => api_key args
  end.

Lemma provider_specs_credentials (a : llm_config) :
  In a (provider_specs env) -> truthy (credential_of a) = true.
Proof.
  unfold provider_specs, groq_specs, huggingface_specs, openai_specs.
  rewrite !in_app_iff.
  destruct (truthy (GROQ_API_KEY env)) eqn:Eg,
           (truthy (HUGGINGFACE_API_KEY env)) eqn:Eh,
           (truthy (OPENAI_API_KEY env)) eqn:Eo;
    cbn; unfold credential_of; cbn;
    intuition (subst; cbn; auto).
Qed.

Lemma provider_specs_at_most_nine : List.length (provider_specs env) <= 9.
Proof.
  unfold provider_specs, groq_specs, huggingface_specs, openai_specs.
  rewrite !length_app.
  destruct (truthy (GROQ_API_KEY env)), (truthy (HUGGINGFACE_API_KEY env)),
           (truthy (OPENAI_API_KEY env)); cbn; lia.
Qed.

(** X2. The constructor is called at most nine times, never for a
    provider whose key is unset or empty, and not at all when no key is
    set. *)
Theorem initialize_llm_calls_have_keys :
  List.length (snd (_initialize_llm env LLM_raises [])) <= 9
  /\ (forall a, In a (snd (_initialize_llm env LLM_raises [])) ->
                truthy (credential_of a) = true)
  /\ (truthy (GROQ_API_KEY env) = false ->
      truthy (HUGGINGFACE_API_KEY env) = false ->
      truthy (OPENAI_API_KEY env) = false ->
      _initialize_llm env LLM_raises []
      = (Raise (RuntimeError no_llm_message), [])).
Proof.
  rewrite initialize_llm_first_success.
  destruct (first_success_trace (provider_specs env) [])
    as (tried & rest & E & Hcalls & _).
  cbn [app] in Hcalls.
  assert (Hsnd : snd (match first_success LLM_raises (provider_specs env) [] with
                      | (Some l, calls') => (Ok l, calls')
                      | (None, calls') =>
                          (Raise (RuntimeError no_llm_message), calls')
                      end) = tried).
  { now destruct (first_success LLM_raises (provider_specs env) [])
      as [[l|] calls]. }
  rewrite Hsnd. split; [|split].
  - pose proof provider_specs_at_most_nine as H.
    rewrite E, length_app in H. lia.
  - intros a Ha. apply provider_specs_credentials.
    rewrite E. apply in_or_app. now left.
  - intros Hg Hh Ho.
    unfold provider_specs, groq_specs, huggingface_specs, openai_specs.
    now rewrite Hg, Hh, Ho.
Qed.

End Resolver.

(** A key set to the empty string counts as no key: with three empty
    keys nothing is constructed. *)
Lemma empty_keys_no_calls :
  _initialize_llm
    {| GROQ_API_KEY := Some []; HUGGINGFACE_API_KEY := Some [];
       OPENAI_API_KEY := Some []; LITELLM_MODEL := None;
       LITELLM_PROVIDER := None |} never_fails []
  = (Raise (RuntimeError no_llm_message), []).
Proof.
  apply (proj2 (proj2 (initialize_llm_calls_have_keys _ never_fails)));
    reflexivity.
Defined.

(** ** The environment check printed when [trip_agents.py] is loaded *)

(** [c * n] for a one-character string [c]: empty when [n <= 0]. *)
Definition str_times (c : N) (n : Z) : pystr := repeat c (Z.to_nat n).

(** [s[i:]]: a negative [i] counts from the end, and the start is
    clipped to the string. *)
Definition slice_from (s : pystr) (i : Z) : pystr :=
  let len := Z.of_nat (List.length s) in
  let start := if (i <? 0)%Z then Z.max 0 (len + i) else Z.min i len in
  skipn (Z.to_nat start) s.

(** ['*' * (len(key) - 5) + key[-5:]] *)
Definition masked (key : pystr) : pystr :=
  str_times 42 (Z.of_nat (List.length key) - 5) ++ slice_from key (-5).

(** The value printed for a key: [masked] when the key is set and not
    empty, else the given text. *)
Definition key_report (key : option pystr) (missing : pystr) : pystr :=
  match key with
  | Some (c :: k) => masked (c :: k)
  | _ => missing
  end.

(** [print(f"DEBUG: LITELLM_MODEL = {os.getenv('LITELLM_MODEL')}")]: an
    unset variable is printed as [None]. *)
Definition getenv_shown (v : option pystr) : pystr :=
  match v with
  | Some s => s
  | None => py "None"
  end.

(** The lines printed between the two rules of the environment check. *)
Definition environment_check (env : environ) : list pystr :=
  [ py "DEBUG: HUGGINGFACE_API_KEY = "
      ++ key_report (HUGGINGFACE_API_KEY env) (py "None (HF key not found)");
    py "DEBUG: LITELLM_MODEL = " ++ getenv_shown (LITELLM_MODEL env);
    py "DEBUG: LITELLM_PROVIDER = " ++ getenv_shown (LITELLM_PROVIDER env);
    py "DEBUG: OPENAI_API_KEY = "
      ++ key_report (OPENAI_API_KEY env) (py "None (OpenAI key not found)");
    py "DEBUG: GROQ_API_KEY = "
      ++ key_report (GROQ_API_KEY env) (py "None (Groq key not found)") ].

Lemma masked_unfold (key : pystr) :
  masked key
  = repeat 42%N (List.length key - 5) ++ skipn (List.length key - 5) key.
Proof.
  unfold masked, str_times, slice_from. cbn [Z.ltb Z.compare].
  replace (Z.to_nat (Z.of_nat (List.length key) - 5))
    with (List.length key - 5) by lia.
  replace (Z.to_nat (Z.max 0 (Z.of_nat (List.length key) + -5)))
    with (List.length key - 5) by lia.
  reflexivity.
Qed.

(** X3. The masked key is as long as the key; its last five characters
    are the key's and every character before them is a star. A key of
    five characters or fewer is therefore printed unmasked. *)
Theorem masked_shows_last_five (key : pystr) :
  List.length (masked key) = List.length key
  /\ (forall i, i < List.length key - 5 -> nth_error (masked key) i = Some 42%N)
  /\ (forall i, List.length key - 5 <= i ->
                nth_error (masked key) i = nth_error key i)
  /\ (List.length key <= 5 -> masked key = key).
Proof.
  rewrite masked_unfold.
  set (n := List.length key - 5).
  assert (Hn : n <= List.length key) by (unfold n; lia).
  repeat split.
  - rewrite length_app, repeat_length, length_skipn. lia.
  - intros i Hi. rewrite nth_error_app1 by (rewrite repeat_length; exact Hi).
    now apply nth_error_repeat.
  - intros i Hi.
    rewrite nth_error_app2 by (rewrite repeat_length; exact Hi).
    rewrite repeat_length, nth_error_skipn. f_equal. lia.
  - intros H. replace n with 0 by (unfold n; lia). reflexivity.
Qed.

(** A four-character Groq key appears in clear in the printed line. *)
Lemma short_key_printed_in_clear :
  masked (py "gsk1") = py "gsk1"
  /\ nth_error (environment_check
                  {| GROQ_API_KEY := Some (py "gsk1");
                     HUGGINGFACE_API_KEY := None; OPENAI_API_KEY := None;
                     LITELLM_MODEL := None; LITELLM_PROVIDER := None |}) 4
     = Some (py "DEBUG: GROQ_API_KEY = gsk1").
Proof.
  split; [|reflexivity].
  apply (proj2 (proj2 (proj2 (masked_shows_last_five (py "gsk1"))))).
  cbn. lia.
Defined.

(** ** [extract_first_city]: the shape of the result *)

(** Every match of [r] contains a character of [p]. *)
Fixpoint needs (p : N -> bool) (r : re) : Prop :=
  match r with
  | Cls p' => forall c, p' c = true -> p c = true
  | Seq r1 r2 => needs p r1 \/ needs p r2
  | Alt r1 r2 => needs p r1 /\ needs p r2
  | Rep _ (S _) _ p' => forall c, p' c = true -> p c = true
  | Rep _ O _ _ => False
  | Grp r1 => needs p r1
  | WordB => False
  end.

(** Every match of [r] begins with a character of [p]. *)
Fixpoint starts_with (p : N -> bool) (r : re) : Prop :=
  match r with
  | Cls p' => forall c, p' c = true -> p c = true
  | Seq WordB r2 => starts_with p r2
  | Seq r1 _ => starts_with p r1
  | Alt r1 r2 => starts_with p r1 /\ starts_with p r2
  | Rep _ (S _) _ p' => forall c, p' c = true -> p c = true
  | Rep _ O _ _ => False
  | Grp r1 => starts_with p r1
  | WordB => False
  end.

(** The capture groups of [r] begin with a character of [p]. *)
Fixpoint groups_start_with (p : N -> bool) (r : re) : Prop :=
  match r with
  | Cls _ | Rep _ _ _ _ | WordB => True
  | Seq r1 r2 | Alt r1 r2 => groups_start_with p r1 /\ groups_start_with p r2
  | Grp r1 => starts_with p r1
  end.

Definition begins_with (p : N -> bool) (t : pystr) : Prop :=
  match t with
  | c :: _ => p c = true
  | [] => True
  end.

Definition group_begins_with (p : N -> bool) (g : option pystr) : Prop :=
  match g with
  | Some t => begins_with p t
  | None => True
  end.

(** The last character of [s] is not white space. *)
Definition no_trailing_space (s : pystr) : Prop :=
  match rev s with
  | c :: _ => isspace c = false
  | [] => True
  end.

Section ExtractorShape.

Variable isalnum_high : N -> bool.
Variable lower_high : pystr -> pystr.

Lemma classes_within_any (r : re) : classes_within (fun _ => true) r.
Proof. induction r; cbn; auto. Qed.

Lemma existsb_suffix (p : N -> bool) (w s : pystr) :
  existsb p s = true -> existsb p (w ++ s) = true.
Proof. intros H. rewrite existsb_app, H. apply orb_true_r. Qed.

Lemma m_needs {R} (p : N -> bool) (r : re) :
  needs p r ->
  forall cur g (k : cursor -> option pystr -> option R) x,
    m isalnum_high r cur g k = Some x -> existsb p (ahead cur) = true.
Proof.
  induction r as [p'|r1 IH1 r2 IH2|r1 IH1 r2 IH2|greedy lo hi p'|r1 IH1|];
    intros Hn cur g k x H; cbn [m needs] in *.
  - destruct (ahead cur) as [|c rest]; [discriminate|].
    destruct (p' c) eqn:Hc; [|discriminate].
    cbn. now rewrite (Hn c Hc).
  - destruct Hn as [Hn|Hn]; [now apply (IH1 Hn) in H|].
    eapply m_consumes in H; [|apply classes_within_any].
    destruct H as (w & cur' & g' & E & _ & _ & H).
    rewrite E. apply existsb_suffix. now apply (IH2 Hn) in H.
  - destruct Hn as [Hn1 Hn2].
    apply orelse_some in H as [H|H]; eauto.
  - destruct lo as [|lo]; [contradiction|].
    destruct (ahead cur) as [|c rest]; [discriminate|].
    cbn [m_rep] in H.
    destruct (p' c) eqn:Hc; [|discriminate].
    cbn. now rewrite (Hn c Hc).
  - eauto.
  - contradiction.
Qed.

(** Where no character of [p] is left, a pattern that needs one finds
    nothing. *)
Lemma scan_finds_nothing (p : N -> bool) (r : re) (rest : pystr) :
  needs p r -> existsb p rest = false ->
  forall prev pos skip,
    Forall (fun pc => exists c, pc = Skipped c)
           (scan isalnum_high r prev rest pos skip).
Proof.
  intros Hn. induction rest as [|c rest IH]; intros Hp prev pos skip.
  - cbn [scan]. destruct skip; [|constructor].
    destruct (match_at isalnum_high r (Cursor prev [] pos)) as [[e g]|] eqn:E;
      [|constructor].
    unfold match_at in E. apply (m_needs p r Hn) in E. discriminate.
  - cbn in Hp. apply orb_false_iff in Hp as [Hc Hp].
    cbn [scan]. destruct skip; [|now apply IH].
    destruct (match_at isalnum_high r (Cursor prev (c :: rest) pos))
      as [[e g]|] eqn:E.
    + unfold match_at in E. apply (m_needs p r Hn) in E.
      cbn in E. rewrite Hc, Hp in E. discriminate.
    + constructor; [eauto|now apply IH].
Qed.

Lemma findall_nothing (p : N -> bool) (r : re) (text : pystr) :
  needs p r -> existsb p text = false -> findall isalnum_high r text = [].
Proof.
  intros Hn Hp. unfold findall.
  pose proof (scan_finds_nothing p r text Hn Hp None 0 0) as H.
  induction H as [|pc pcs [c ->] _ IH]; [reflexivity|exact IH].
Qed.

Lemma patterns_need_upper : Forall (needs isupper_ascii) patterns.
Proof.
  unfold patterns.
  repeat (apply Forall_cons || apply Forall_nil); cbn; auto 10.
Qed.

Lemma existsb_filter_false (p f : N -> bool) (s : pystr) :
  existsb p s = false -> existsb p (filter f s) = false.
Proof.
  induction s as [|c s IH]; [reflexivity|].
  cbn. intros H. apply orb_false_iff in H as [Hc Hs].
  destruct (f c); cbn; [rewrite Hc|]; auto.
Qed.

Lemma try_patterns_nothing (ps : list re) (text : pystr) :
  Forall (needs isupper_ascii) ps ->
  existsb isupper_ascii text = false ->
  try_patterns isalnum_high lower_high ps text = default_city.
Proof.
  intros Hps Hp. induction Hps as [|r ps Hr _ IH]; [reflexivity|].
  cbn [try_patterns]. now rewrite (findall_nothing _ r text Hr Hp).
Qed.

(** X5. A text without a capital letter A-Z gives the default city:
    each of the four rules needs one. *)
Theorem extract_first_city_needs_capital (text : pystr) :
  existsb isupper_ascii text = false ->
  extract_first_city isalnum_high lower_high (VStr text) = Ok default_city.
Proof.
  intros H. rewrite extract_first_city_str, sub_surrogates.
  f_equal. apply try_patterns_nothing; [apply patterns_need_upper|].
  now apply existsb_filter_false.
Qed.

End ExtractorShape.

Lemma lowercase_answer_gives_paris :
  extract_first_city ascii_alnum ascii_lower
    (VStr (py "we recommend tokyo, japan - a great choice"))
  = Ok (py "Paris").
Proof.
  apply extract_first_city_needs_capital. reflexivity.
Defined.

Section ExtractorResult.

Variable isalnum_high : N -> bool.
Variable lower_high : pystr -> pystr.

(** A match that must begin with a character of [p] has consumed one. *)
Lemma m_consumes_first {R} (p : N -> bool) (r : re) :
  starts_with p r ->
  forall cur g (k : cursor -> option pystr -> option R) x,
    m isalnum_high r cur g k = Some x ->
    exists c w cur' g',
      ahead cur = (c :: w) ++ ahead cur'
      /\ at_pos cur' = at_pos cur + S (List.length w)
      /\ p c = true
      /\ k cur' g' = Some x.
Proof.
  induction r as [p'|r1 IH1 r2 IH2|r1 IH1 r2 IH2|greedy lo hi p'|r1 IH1|];
    intros Hs cur g k x H.
  - cbn [m starts_with] in *.
    destruct (ahead cur) as [|c rest] eqn:E; [discriminate|].
    destruct (p' c) eqn:Hc; [|discriminate].
    exists c, [], (Cursor (Some c) rest (S (at_pos cur))), g.
    cbn. rewrite Nat.add_1_r. auto.
  - assert (Hfirst : starts_with p r1 ->
              exists c w cur' g',
                ahead cur = (c :: w) ++ ahead cur'
                /\ at_pos cur' = at_pos cur + S (List.length w)
                /\ p c = true /\ k cur' g' = Some x).
    { intros Hs1. cbn [m] in H. apply (IH1 Hs1) in H.
      destruct H as (c & w1 & cur1 & g1 & E1 & P1 & Hc & H).
      eapply m_consumes in H; [|apply classes_within_any].
      destruct H as (w2 & cur2 & g2 & E2 & P2 & _ & H).
      exists c, (w1 ++ w2), cur2, g2.
      rewrite E1, E2, P2, P1, length_app.
      repeat split; auto.
      - cbn. now rewrite <- app_assoc.
      - lia. }
    destruct r1; try (apply Hfirst; exact Hs).
    cbn [m starts_with] in *.
    destruct (at_boundary isalnum_high cur); [|discriminate].
    now apply (IH2 Hs) in H.
  - cbn [m starts_with] in *. destruct Hs as [Hs1 Hs2].
    apply orelse_some in H as [H|H]; eauto.
  - cbn [m starts_with] in *.
    destruct lo as [|lo]; [contradiction|].
    destruct (ahead cur) as [|c rest] eqn:E; [discriminate|].
    cbn [m_rep] in H.
    destruct (p' c) eqn:Hc; cbn [andb] in H; [|discriminate].
    destruct (may_repeat hi); [|discriminate].
    eapply m_rep_consumes with (q := fun _ => true) in H; [|reflexivity].
    destruct H as (w & prev' & rest' & -> & _ & H).
    exists c, w, (Cursor prev' rest' (S (at_pos cur) + List.length w)), g.
    cbn. repeat split; auto; lia.
  - cbn [m starts_with] in *.
    apply (IH1 Hs) in H.
    destruct H as (c & w & cur' & _ & E & P & Hc & H). eauto 10.
  - contradiction.
Qed.

(** The text a match captures begins with a character of its group. *)
Lemma m_group_begins {R} (p : N -> bool) (r : re) :
  groups_start_with p r ->
  forall cur g (k : cursor -> option pystr -> option R) x,
    group_begins_with p g ->
    m isalnum_high r cur g k = Some x ->
    exists cur' g', group_begins_with p g' /\ k cur' g' = Some x.
Proof.
  induction r as [p'|r1 IH1 r2 IH2|r1 IH1 r2 IH2|greedy lo hi p'|r1 IH1|];
    intros Hq cur g k x Hg H; cbn [m groups_start_with] in *.
  - destruct (ahead cur) as [|c rest]; [discriminate|].
    destruct (p' c); [eauto|discriminate].
  - destruct Hq as [Hq1 Hq2].
    apply (IH1 Hq1 _ _ _ _ Hg) in H.
    destruct H as (cur1 & g1 & Hg1 & H1). eauto.
  - destruct Hq as [Hq1 Hq2].
    apply orelse_some in H as [H|H]; eauto.
  - eapply m_rep_consumes with (q := fun _ => true) in H; [|reflexivity].
    destruct H as (w & prev' & rest' & _ & _ & Hk). eauto.
  - apply (m_consumes_first p r1 Hq) in H.
    destruct H as (c & w & cur' & _ & E & P & Hc & Hk).
    exists cur'. eexists. split; [|exact Hk].
    rewrite E, P.
    replace (at_pos cur + S (List.length w) - at_pos cur)
      with (S (List.length w)) by lia.
    exact Hc.
  - destruct (at_boundary isalnum_high cur); [eauto|discriminate].
Qed.

Lemma scan_begins (p : N -> bool) (r : re) (rest : pystr) :
  groups_start_with p r ->
  forall prev pos skip,
    Forall (fun pc => match pc with
                      | Matched g => group_begins_with p g
                      | Skipped _ => True
                      end)
           (scan isalnum_high r prev rest pos skip).
Proof.
  intros Hq.
  assert (Hat : forall cur e g,
             match_at isalnum_high r cur = Some (e, g) ->
             group_begins_with p g).
  { intros cur e g H. unfold match_at in H.
    apply (m_group_begins p r Hq cur None _ I) in H.
    now destruct H as (cur' & g' & Hg & [= _ <-]). }
  induction rest as [|c rest IH]; intros prev pos skip.
  - cbn [scan]. destruct skip; [|constructor].
    destruct (match_at isalnum_high r (Cursor prev [] pos)) as [[e g]|] eqn:E;
      constructor; eauto.
  - cbn [scan]. destruct skip; [|apply IH].
    destruct (match_at isalnum_high r (Cursor prev (c :: rest) pos))
      as [[e g]|] eqn:E; constructor; eauto.
Qed.

Lemma findall_begins (p : N -> bool) (r : re) (text : pystr) :
  groups_start_with p r ->
  Forall (begins_with p) (findall isalnum_high r text).
Proof.
  intros Hq. unfold findall.
  pose proof (scan_begins p r text Hq None 0 0) as H.
  induction H as [|pc pcs Hpc _ IH]; [constructor|].
  cbn [flat_map]. destruct pc as [c|[t|]]; cbn [app]; auto.
Qed.

Lemma patterns_begin_upper : Forall (groups_start_with isupper_ascii) patterns.
Proof.
  unfold patterns.
  repeat (apply Forall_cons || apply Forall_nil); cbn; auto 10.
Qed.

Lemma candidates_begin_upper (text : pystr) :
  Forall (begins_with isupper_ascii) (candidates isalnum_high patterns text).
Proof.
  unfold candidates.
  induction patterns_begin_upper as [|r ps Hr _ IH]; [constructor|].
  cbn [flat_map]. apply Forall_app. split; [|exact IH].
  now apply findall_begins.
Qed.

Lemma upper_not_space (c : N) : isupper_ascii c = true -> isspace c = false.
Proof.
  unfold isupper_ascii, isspace, in_range. intros H.
  apply andb_true_iff in H as [H1 H2].
  apply N.leb_le in H1. apply N.leb_le in H2.
  repeat (apply orb_false_iff; split);
    first [ apply N.eqb_neq; lia
          | apply andb_false_iff; left; apply N.leb_gt; lia
          | apply andb_false_iff; right; apply N.leb_gt; lia ].
Qed.

Lemma dropwhile_head (p : N -> bool) (s : pystr) :
  begins_with (fun c => negb (p c)) (dropwhile p s).
Proof.
  induction s as [|c s IH]; [exact I|].
  cbn [dropwhile]. destruct (p c) eqn:E; [exact IH|].
  cbn. now rewrite E.
Qed.

Lemma dropwhile_snoc (p : N -> bool) (s : pystr) (c : N) :
  p c = false -> dropwhile p (s ++ [c]) = dropwhile p s ++ [c].
Proof.
  intros Hc. induction s as [|d s IH]; cbn; [now rewrite Hc|].
  now destruct (p d).
Qed.

(** Stripping a string that begins with a capital letter keeps the
    letter in front and leaves no white space at the end. *)
Lemma strip_capitalized (c : N) (w : pystr) :
  isupper_ascii c = true ->
  exists w', strip (c :: w) = c :: w' /\ no_trailing_space (c :: w').
Proof.
  intros Hc. pose proof (upper_not_space c Hc) as Hs.
  unfold strip. cbn [dropwhile]. rewrite Hs.
  cbn [rev]. rewrite (dropwhile_snoc isspace (rev w) c Hs).
  rewrite rev_app_distr. cbn [rev app].
  eexists. split; [reflexivity|].
  unfold no_trailing_space. cbn [rev]. rewrite rev_involutive.
  pose proof (dropwhile_head isspace (rev w)) as H.
  destruct (dropwhile isspace (rev w)) as [|d ds]; cbn; [exact Hs|].
  cbn in H. now apply negb_true_iff.
Qed.

(** What every returned city looks like. *)
Definition city_shape (city : pystr) : Prop :=
  forallb alpha_space city = true
  /\ (exists c w, city = c :: w /\ isupper_ascii c = true)
  /\ no_trailing_space city.

Lemma first_accepted_shape (ms : list pystr) (city : pystr) :
  Forall (fun t => forallb alpha_space t = true) ms ->
  Forall (begins_with isupper_ascii) ms ->
  first_accepted lower_high ms = Some city ->
  city_shape city.
Proof.
  intros Hl Hb. induction Hl as [|t ms Ht _ IH]; [discriminate|].
  inversion Hb as [|? ? Hbt Hbms]; subst.
  cbn [first_accepted].
  destruct (accepted lower_high (strip t)) eqn:E; [|now apply IH].
  intros [= <-].
  destruct t as [|c w]; [discriminate|].
  destruct (strip_capitalized c w Hbt) as (w' & Es & Hn).
  split; [now apply strip_within|].
  rewrite Es in *. split; eauto.
Qed.

(** X4. Whatever the text, the returned city is made of ASCII letters
    and white space only, begins with a capital letter A-Z and does not
    end in white space: no digit, punctuation mark or accented letter is
    ever part of it. *)
Theorem extract_first_city_shape (text : pystr) :
  exists city,
    extract_first_city isalnum_high lower_high (VStr text) = Ok city
    /\ forallb alpha_space city = true
    /\ (exists c w, city = c :: w /\ isupper_ascii c = true)
    /\ no_trailing_space city.
Proof.
  eexists. split; [apply extract_first_city_str|].
  rewrite try_patterns_candidates.
  destruct (first_accepted lower_high _) as [city|] eqn:E.
  - eapply first_accepted_shape; eauto using candidates_letters,
      candidates_begin_upper.
  - split; [reflexivity|]. split; [|reflexivity].
    exists 80%N, (py "aris"). now split.
Qed.

End ExtractorResult.

(** ** [TripTasks]: the task descriptions *)

(** A dict with [str] keys, in insertion order. *)
Definition pydict := list (pystr * pyval).

(** [d.get(key, default)] *)
Definition dict_get (d : pydict) (key : pystr) (default : pyval) : pyval :=
  match find (fun kv => pystr_eqb (fst kv) key) d with
  | Some kv => snd kv
  | None => default
  end.

(** [{inputs.get(key, default)}] inside an f-string. *)
Definition get (inputs : pydict) (key default : pystr) : pystr :=
  str_of (dict_get inputs key (VStr default)).

(** The dict literal of [main]; the duration is an [int]. *)
Definition inputs_dict (i : Inputs) : pydict :=
  [ (py "travel_type", VStr (travel_type i));
    (py "interests", VStr (interests i));
    (py "season", VStr (season i));
    (py "duration", VObj (str_of_int (duration i)));
    (py "budget", VStr (budget i)) ].

(** The local [description] of each method of [TripTasks]. *)
Definition city_selection_description (inputs : pydict) : pystr :=
  lines
    [ py "";
      py "        Based on the following user preferences, select the 3 best cities to visit:";
      py "";
      py "        Travel Type: " ++ get inputs (py "travel_type") (py "Not specified");
      py "        Interests: " ++ get inputs (py "interests") (py "Not specified");
      py "        Season: " ++ get inputs (py "season") (py "Not specified");
      py "        Budget Range: " ++ get inputs (py "budget") (py "Not specified");
      py "        Duration: " ++ get inputs (py "duration") (py "Not specified") ++ py " days";
      py "";
      py "        For each city, provide:";
      py "        1. City name and country";
      py "        2. Why it matches their travel type and interests";
      py "        3. Why it's perfect for the specified season";
      py "        4. Brief highlight of what makes it special";
      py "";
      py "        Format your response as a numbered list with city names clearly stated.";
      py "        " ].

Definition city_research_description (city : pystr) : pystr :=
  lines
    [ py "";
      py "        Provide comprehensive research about " ++ city ++ py " including:";
      py "";
      py "        1. TOP 5 ATTRACTIONS: Must-visit places with brief descriptions and estimated time to visit each.";
      py "        2. LOCAL CUISINE: Signature dishes and where to find them (e.g., specific types of restaurants or markets).";
      py "        3. CULTURAL INSIGHTS: Important customs, etiquette, and cultural norms (e.g., tipping, greetings).";
      py "        4. ACCOMMODATION: Best areas to stay for different budgets (e.g., luxury, mid-range, budget) and types of lodging.";
      py "        5. TRANSPORTATION: How to get around the city efficiently (public transport, taxis, ride-shares) and airport transfers.";
      py "        6. BEST TIME TO VISIT: Optimal months, what to expect regarding weather and crowds, and major events if any.";
      py "        7. PRACTICAL TIPS: Essential information for first-time visitors (e.g., currency, safety, language basics, common scams).";
      py "";
      py "        Make this practical and actionable for travelers, using bullet points or numbered lists where appropriate for clarity.";
      py "        " ].

Definition itinerary_description (inputs : pydict) (city : pystr) : pystr :=
  let duration := get inputs (py "duration") (py "3") in
  let travel_type := get inputs (py "travel_type") (py "leisure") in
  let interests := get inputs (py "interests") (py "general sightseeing") in
  lines
    [ py "";
      py "        Create a detailed " ++ duration ++ py "-day itinerary for " ++ city ++ py " based on:";
      py "        - Travel Type: " ++ travel_type;
      py "        - Interests: " ++ interests;
      py "        - Duration: " ++ duration ++ py " days";
      py "        - Current location: Surat, Gujarat, India (Consider this for travel logistics if applicable, but focus on the destination city itself)";
      py "";
      py "        For each day, include:";
      py "        1. DAY NUMBER: Clearly state the day (e.g., 'Day 1: Arrival and City Exploration')";
      py "        2. Morning activities (9 AM - 12 PM) with specific attractions/locations";
      py "        3. Afternoon activities (12 PM - 5 PM) with specific attractions/locations";
      py "        4. Evening activities (5 PM - 9 PM) including recommendations for dinner/nightlife";
      py "        5. Recommended restaurants for each meal (Breakfast, Lunch, Dinner) with type of cuisine";
      py "        6. Estimated transportation methods between locations (e.g., 'walk', 'metro', 'taxi')";
      py "        7. Estimated time for each activity";
      py "        8. Any booking requirements or tips (e.g., 'Book in advance', 'Wear comfortable shoes')";
      py "";
      py "        Make sure activities are geographically logical, account for realistic travel time between locations,";
      py "        and maximize the experience given the specified travel type and interests.";
      py "        " ].

Definition budget_description (inputs : pydict) (city : pystr) : pystr :=
  let budget_range := get inputs (py "budget") (py "moderate") in
  let duration := get inputs (py "duration") (py "3") in
  let travel_type := get inputs (py "travel_type") (py "leisure") in
  lines
    [ py "";
      py "        Create a realistic budget plan for a " ++ duration ++ py "-day trip to " ++ city ++ py " assuming a " ++ budget_range ++ py " budget.";
      py "        Consider that the traveler is from Surat, Gujarat, India, which might influence spending habits or expectations.";
      py "";
      py "        Break down costs for the following categories:";
      py "        1. ACCOMMODATION: Per night costs and total for " ++ duration ++ py " nights. Provide options for the given budget.";
      py "        2. MEALS: Daily averages for Breakfast, Lunch, Dinner. Provide typical costs for different meal types.";
      py "        3. TRANSPORTATION: Local transport (daily passes, single rides), airport transfers (round trip), and potentially inter-city travel if applicable.";
      py "        4. ATTRACTIONS: Entry fees for major sights and activities.";
      py "        5. SHOPPING & MISCELLANEOUS: Estimated daily allowance for souvenirs, snacks, coffee, and small purchases.";
      py "        6. EMERGENCY FUND: A recommended 10-15% buffer of the total estimated cost.";
      py "";
      py "        Provide:";
      py "        - Daily budget estimates for each category.";
      py "        - Total estimated budget for the entire " ++ duration ++ py "-day trip.";
      py "        - Money-saving tips specific to " ++ city ++ py ".";
      py "        - Splurge recommendations (e.g., a fancy dinner, unique experience) with estimated costs.";
      py "";
      py "        Use currency relevant to the destination city or provide a clear indication (e.g., USD, EUR, local currency).";
      py "        " ].

Definition plain_values (inputs : pydict) : Prop :=
  Forall (fun kv => forallb plain (str_of (snd kv)) = true) inputs.

Definition plain_inputs (i : Inputs) : Prop :=
  forallb plain (travel_type i) = true
  /\ forallb plain (interests i) = true
  /\ forallb plain (season i) = true
  /\ forallb plain (budget i) = true.

Lemma contains_app_l (a b n : pystr) :
  contains a n = true -> contains (a ++ b) n = true.
Proof.
  intros H. apply contains_complete, substr_app_l. now apply contains_sound.
Qed.

Lemma contains_app_r (a b n : pystr) :
  contains b n = true -> contains (a ++ b) n = true.
Proof.
  intros H. apply contains_complete, substr_app_r. now apply contains_sound.
Qed.

(** Splits conjunctions, and nothing else. *)
Ltac split_all := repeat lazymatch goal with |- _ /\ _ => split end.

(** A text written out in the source. *)
Ltac is_literal t :=
  lazymatch t with
  | py _ => idtac
  | map lower_ascii ?x => is_literal x
  | ?a ++ ?b => is_literal a; is_literal b
  | cons _ nil => idtac
  end.

(** Looks for a text in a concatenation: it is one of the parts, or it
    lies in a part that is written out in the source. *)
Ltac contains_search :=
  lazymatch goal with
  | |- contains ?t ?n = true =>
      tryif is_literal t
      then (is_literal n; vm_compute; reflexivity)
      else lazymatch t with
           | _ ++ _ =>
               first [ apply contains_app_l; contains_search
                     | apply contains_app_r; contains_search ]
           | n => apply contains_complete, substr_refl
           | _ => assumption
           end
  end.

Lemma dict_get_missing (d : pydict) (key : pystr) (default : pyval) :
  (forall kv, In kv d -> fst kv <> key) -> dict_get d key default = default.
Proof.
  unfold dict_get. induction d as [|kv d IH]; intros H; [reflexivity|].
  cbn [find]. unfold pystr_eqb at 1.
  destruct (list_eq_dec N.eq_dec (fst kv) key) as [E|_].
  - now destruct (H kv (or_introl eq_refl)).
  - apply IH. intros kv' Hin. apply H. now right.
Qed.

Lemma get_missing (d : pydict) (key default : pystr) :
  (forall kv, In kv d -> fst kv <> key) -> get d key default = default.
Proof. intros H. unfold get. now rewrite dict_get_missing. Qed.

Lemma get_travel_type (i : Inputs) (default : pystr) :
  get (inputs_dict i) (py "travel_type") default = travel_type i.
Proof. reflexivity. Qed.

Lemma get_interests (i : Inputs) (default : pystr) :
  get (inputs_dict i) (py "interests") default = interests i.
Proof. reflexivity. Qed.

Lemma get_season (i : Inputs) (default : pystr) :
  get (inputs_dict i) (py "season") default = season i.
Proof. reflexivity. Qed.

Lemma get_duration (i : Inputs) (default : pystr) :
  get (inputs_dict i) (py "duration") default = str_of_int (duration i).
Proof. reflexivity. Qed.

Lemma get_budget (i : Inputs) (default : pystr) :
  get (inputs_dict i) (py "budget") default = budget i.
Proof. reflexivity. Qed.

Ltac open_description :=
  unfold city_selection_description, city_research_description,
    itinerary_description, budget_description, lines;
  cbn [join];
  rewrite ?get_travel_type, ?get_interests, ?get_season, ?get_duration,
    ?get_budget.

(** X6. For the dict [main] builds, the city-selection description
    holds all five preferences, the research description only the city,
    the itinerary description the city, the duration, the travel type
    and the interests, and the budget description the city, the duration
    and the budget. A key the dict lacks is replaced by the default of
    its [get]: the season by ["Not specified"], the duration of the
    itinerary by ["3"], the budget by ["moderate"]. *)
Theorem task_descriptions_interpolate :
  (forall i city,
      (contains (city_selection_description (inputs_dict i)) (travel_type i) = true
       /\ contains (city_selection_description (inputs_dict i)) (interests i) = true
       /\ contains (city_selection_description (inputs_dict i)) (season i) = true
       /\ contains (city_selection_description (inputs_dict i)) (budget i) = true
       /\ contains (city_selection_description (inputs_dict i))
            (str_of_int (duration i)) = true)
      /\ contains (city_research_description city) city = true
      /\ (contains (itinerary_description (inputs_dict i) city) city = true
          /\ contains (itinerary_description (inputs_dict i) city)
               (str_of_int (duration i)) = true
          /\ contains (itinerary_description (inputs_dict i) city)
               (travel_type i) = true
          /\ contains (itinerary_description (inputs_dict i) city)
               (interests i) = true)
      /\ (contains (budget_description (inputs_dict i) city) city = true
          /\ contains (budget_description (inputs_dict i) city)
               (str_of_int (duration i)) = true
          /\ contains (budget_description (inputs_dict i) city)
               (budget i) = true))
  /\ (forall inputs city,
        ((forall kv, In kv inputs -> fst kv <> py "season") ->
         contains (city_selection_description inputs)
           (py "Season: Not specified") = true)
        /\ ((forall kv, In kv inputs -> fst kv <> py "duration") ->
            contains (itinerary_description inputs city)
              (py "- Duration: 3 days") = true)
        /\ ((forall kv, In kv inputs -> fst kv <> py "budget") ->
            contains (budget_description inputs city)
              (py " assuming a moderate budget.") = true)).
Proof.
  split.
  - intros i city. split_all; open_description; contains_search.
  - intros inputs city. split_all; intros H;
      unfold city_selection_description, itinerary_description,
        budget_description, lines; cbn [join];
      rewrite (get_missing _ _ H); contains_search.
Qed.

(** With an empty dict every default shows. *)
Lemma empty_inputs_show_defaults :
  contains (city_selection_description []) (py "Season: Not specified") = true
  /\ contains (itinerary_description [] (py "Paris"))
       (py "- Duration: 3 days") = true
  /\ contains (budget_description [] (py "Paris"))
       (py " assuming a moderate budget.") = true.
Proof.
  destruct (proj2 task_descriptions_interpolate [] (py "Paris"))
    as (H1 & H2 & H3).
  split; [|split]; [apply H1|apply H2|apply H3]; intros kv [].
Defined.

(** ** [TripCrew.run]: where the task results go *)

Lemma plain_lower_ascii (s : pystr) :
  forallb plain s = true -> forallb plain (map lower_ascii s) = true.
Proof.
  induction s as [|c s IH]; [reflexivity|].
  cbn. intros H. apply andb_true_iff in H as [Hc Hs].
  rewrite (IH Hs), andb_true_r.
  unfold lower_ascii. destruct (isupper_ascii c) eqn:E; [|exact Hc].
  unfold plain, isupper_ascii, in_range in *.
  apply andb_true_iff in E as [_ E]. apply N.leb_le in E.
  apply orb_true_iff. left. apply N.ltb_lt. lia.
Qed.

Section TaskDispatch.

Variable isalnum_high : N -> bool.
Variable lower_high : pystr -> pystr.
Variable city_kickoff : TripCrew -> result crew_output.
Variable trip_kickoff : TripCrew -> pystr -> result crew_output.

Lemma lower_plain (s : pystr) :
  forallb plain s = true -> lower lower_high s = map lower_ascii s.
Proof. intros H. unfold lower. fold plain. now rewrite H. Qed.

Lemma clean_plain (s : pystr) :
  forallb plain s = true -> clean_surrogates isalnum_high (VStr s) = VStr s.
Proof.
  intros H. cbn [clean_surrogates]. rewrite sub_surrogates, filter_all;
    [reflexivity|].
  rewrite forallb_forall in *. auto using plain_not_surrogate.
Qed.

Ltac plain_parts :=
  lazymatch goal with
  | |- forallb plain (_ ++ _) = true =>
      rewrite forallb_app; apply andb_true_iff; split; plain_parts
  | |- _ =>
      first [ assumption | apply plain_str_of_int | vm_compute; reflexivity ]
  end.

Lemma research_description_plain (city : pystr) :
  forallb plain city = true ->
  forallb plain (city_research_description city) = true.
Proof. intros H. open_description. plain_parts. Qed.

Lemma itinerary_description_plain (i : Inputs) (city : pystr) :
  plain_inputs i -> forallb plain city = true ->
  forallb plain (itinerary_description (inputs_dict i) city) = true.
Proof. intros (Ht & Hi & Hs & Hb) H. open_description. plain_parts. Qed.

Lemma budget_description_plain (i : Inputs) (city : pystr) :
  plain_inputs i -> forallb plain city = true ->
  forallb plain (budget_description (inputs_dict i) city) = true.
Proof. intros (Ht & Hi & Hs & Hb) H. open_description. plain_parts. Qed.

(** The crew hands back one result per task, in task order, each with
    the description its task was created with. *)
Definition reports (d : crew_output) (self : TripCrew) (city : pystr)
    (t_r t_i t_b : task_output) : Prop :=
  tasks_output d = Some [t_r; t_i; t_b]
  /\ VStr (description t_r)
     = clean_surrogates isalnum_high (VStr (city_research_description city))
  /\ VStr (description t_i)
     = clean_surrogates isalnum_high
         (VStr (itinerary_description (inputs_dict (crew_inputs self)) city))
  /\ VStr (description t_b)
     = clean_surrogates isalnum_high
         (VStr (budget_description (inputs_dict (crew_inputs self)) city)).

Lemma reported_descriptions (d : crew_output) (self : TripCrew)
    (city : pystr) (t_r t_i t_b : task_output) :
  reports d self city t_r t_i t_b ->
  plain_inputs (crew_inputs self) -> forallb plain city = true ->
  description t_r = city_research_description city
  /\ description t_i
     = itinerary_description (inputs_dict (crew_inputs self)) city
  /\ description t_b
     = budget_description (inputs_dict (crew_inputs self)) city.
Proof.
  intros (_ & Hr & Hi & Hb) Hin Hc.
  rewrite clean_plain in Hr by now apply research_description_plain.
  rewrite clean_plain in Hi by now apply itinerary_description_plain.
  rewrite clean_plain in Hb by now apply budget_description_plain.
  now injection Hr; injection Hi; injection Hb.
Qed.

(** The research description is taken for research: it names both
    "research" and "budgets", and "research" is asked for first. *)
Lemma research_description_slot (city : pystr) :
  forallb plain city = true ->
  contains (lower lower_high (city_research_description city))
    (py "research") = true
  /\ contains (lower lower_high (city_research_description city))
       (py "budget") = true.
Proof.
  intros H. rewrite lower_plain by now apply research_description_plain.
  split; open_description; rewrite !map_app; contains_search.
Qed.

Lemma itinerary_description_names_itself (i : Inputs) (city : pystr) :
  plain_inputs i -> forallb plain city = true ->
  contains (lower lower_high (itinerary_description (inputs_dict i) city))
    (py "itinerary") = true.
Proof.
  intros Hi H. rewrite lower_plain by now apply itinerary_description_plain.
  open_description. rewrite !map_app. contains_search.
Qed.

Lemma budget_description_names_itself (i : Inputs) (city : pystr) :
  plain_inputs i -> forallb plain city = true ->
  contains (lower lower_high (budget_description (inputs_dict i) city))
    (py "budget") = true.
Proof.
  intros Hi H. rewrite lower_plain by now apply budget_description_plain.
  open_description. rewrite !map_app. contains_search.
Qed.

Lemma city_in_descriptions (i : Inputs) (city : pystr) (word : pystr) :
  plain_inputs i -> forallb plain city = true ->
  contains (lower lower_high city) word = true ->
  contains (lower lower_high (itinerary_description (inputs_dict i) city))
    word = true
  /\ contains (lower lower_high (budget_description (inputs_dict i) city))
       word = true.
Proof.
  intros Hi H Hw. rewrite lower_plain in Hw by exact H.
  rewrite lower_plain by now apply itinerary_description_plain.
  rewrite lower_plain by now apply budget_description_plain.
  split; open_description; rewrite !map_app; contains_search.
Qed.

Lemma assign_research (d : details) (t : task_output) :
  contains (lower lower_high (description t)) (py "research") = true ->
  assign_task lower_high d t
  = {| research_output := task_text t;
       itinerary_output := itinerary_output d;
       budget_output := budget_output d |}.
Proof. intros H. unfold assign_task. now rewrite H. Qed.

Lemma assign_itinerary (d : details) (t : task_output) :
  contains (lower lower_high (description t)) (py "research") = false ->
  contains (lower lower_high (description t)) (py "itinerary") = true ->
  assign_task lower_high d t
  = {| research_output := research_output d;
       itinerary_output := task_text t;
       budget_output := budget_output d |}.
Proof. intros H1 H2. unfold assign_task. now rewrite H1, H2. Qed.

Lemma assign_budget (d : details) (t : task_output) :
  contains (lower lower_high (description t)) (py "research") = false ->
  contains (lower lower_high (description t)) (py "itinerary") = false ->
  contains (lower lower_high (description t)) (py "budget") = true ->
  assign_task lower_high d t
  = {| research_output := research_output d;
       itinerary_output := itinerary_output d;
       budget_output := task_text t |}.
Proof. intros H1 H2 H3. unfold assign_task. now rewrite H1, H2, H3. Qed.

Lemma run_with_tasks (self : TripCrew) (o d : crew_output)
    (city_output_raw : pyval) (city : pystr) (t : task_output)
    (ts : list task_output) :
  city_kickoff self = Ok o ->
  city_output_raw_of o = Ok city_output_raw ->
  existsb is_surrogate (str_of city_output_raw) = false ->
  extract_first_city isalnum_high lower_high city_output_raw = Ok city ->
  trip_kickoff self city = Ok d ->
  tasks_output d = Some (t :: ts) ->
  run isalnum_high lower_high city_kickoff trip_kickoff self
  = Ok (let details := fold_left (assign_task lower_high) (t :: ts) no_details in
        {| city_selection := clean_surrogates isalnum_high city_output_raw;
           city_research :=
             clean_surrogates isalnum_high (research_output details);
           itinerary :=
             clean_surrogates isalnum_high (itinerary_output details);
           budget_plan :=
             clean_surrogates isalnum_high (budget_output details) |}).
Proof.
  intros Hcity Hraw Hprint Hextract Htrip Hts.
  unfold run. rewrite (@run_body_after_city isalnum_high lower_high city_kickoff
             trip_kickoff self o _ _ Hcity Hraw Hprint Hextract).
  rewrite Htrip; cbn [bind_result].
  unfold collect_details. now rewrite Hts.
Qed.

(** X7. Let the preferences be made of ASCII characters and white space
    and the city result hold no surrogate. When the crew hands back the
    three results in task order and the lowered itinerary description
    holds no "research" and the lowered budget description neither
    "research" nor "itinerary", each result reaches its own field. *)
Theorem run_routes_results (self : TripCrew) (o d : crew_output)
    (city_output_raw : pyval) (city : pystr) (t_r t_i t_b : task_output) :
  city_kickoff self = Ok o ->
  city_output_raw_of o = Ok city_output_raw ->
  existsb is_surrogate (str_of city_output_raw) = false ->
  extract_first_city isalnum_high lower_high city_output_raw = Ok city ->
  trip_kickoff self city = Ok d ->
  reports d self city t_r t_i t_b ->
  plain_inputs (crew_inputs self) ->
  contains (lower lower_high
              (itinerary_description (inputs_dict (crew_inputs self)) city))
    (py "research") = false ->
  contains (lower lower_high
              (budget_description (inputs_dict (crew_inputs self)) city))
    (py "research") = false ->
  contains (lower lower_high
              (budget_description (inputs_dict (crew_inputs self)) city))
    (py "itinerary") = false ->
  run isalnum_high lower_high city_kickoff trip_kickoff self
  = Ok {| city_selection := clean_surrogates isalnum_high city_output_raw;
          city_research := clean_surrogates isalnum_high (task_text t_r);
          itinerary := clean_surrogates isalnum_high (task_text t_i);
          budget_plan := clean_surrogates isalnum_high (task_text t_b) |}.
Proof.
  intros Hcity Hraw Hprint Hextract Htrip Hrep Hin Hir Hbr Hbi.
  pose proof Hextract as Hc. apply extract_first_city_letters in Hc.
  destruct (@reported_descriptions d self city t_r t_i t_b Hrep Hin Hc)
    as (Dr & Di & Db).
  destruct (@research_description_slot city Hc) as [Hrr _].
  pose proof (@itinerary_description_names_itself (crew_inputs self) city
                Hin Hc) as Hii.
  pose proof (@budget_description_names_itself (crew_inputs self) city
                Hin Hc) as Hbb.
  rewrite (@run_with_tasks self o d city_output_raw city t_r [t_i; t_b]
             Hcity Hraw Hprint Hextract Htrip (proj1 Hrep)).
  rewrite <- Dr in Hrr. rewrite <- Di in Hir, Hii.
  rewrite <- Db in Hbr, Hbi, Hbb.
  cbn [fold_left].
  rewrite (assign_research no_details t_r Hrr).
  rewrite (assign_itinerary _ t_i Hir Hii).
  rewrite (assign_budget _ t_b Hbr Hbi Hbb).
  reflexivity.
Qed.

(** X8. Let the preferences be made of ASCII characters and white space
    and the city result hold no surrogate. When the extracted city name
    holds the word "research", in any case of its letters, all three
    results are taken for research: the research field ends up with the
    budget result, and the itinerary and budget fields keep their
    placeholders although both tasks succeeded. *)
Theorem run_misroutes_research_city (self : TripCrew) (o d : crew_output)
    (city_output_raw : pyval) (city : pystr) (t_r t_i t_b : task_output) :
  city_kickoff self = Ok o ->
  city_output_raw_of o = Ok city_output_raw ->
  existsb is_surrogate (str_of city_output_raw) = false ->
  extract_first_city isalnum_high lower_high city_output_raw = Ok city ->
  trip_kickoff self city = Ok d ->
  reports d self city t_r t_i t_b ->
  plain_inputs (crew_inputs self) ->
  contains (lower lower_high city) (py "research") = true ->
  run isalnum_high lower_high city_kickoff trip_kickoff self
  = Ok {| city_selection := clean_surrogates isalnum_high city_output_raw;
          city_research := clean_surrogates isalnum_high (task_text t_b);
          itinerary := VStr (py "No itinerary available");
          budget_plan := VStr (py "No budget available") |}.
Proof.
  intros Hcity Hraw Hprint Hextract Htrip Hrep Hin Hword.
  pose proof Hextract as Hc. apply extract_first_city_letters in Hc.
  destruct (@reported_descriptions d self city t_r t_i t_b Hrep Hin Hc)
    as (Dr & Di & Db).
  destruct (@research_description_slot city Hc) as [Hrr _].
  destruct (@city_in_descriptions (crew_inputs self) city (py "research")
              Hin Hc Hword) as [Hir Hbr].
  rewrite (@run_with_tasks self o d city_output_raw city t_r [t_i; t_b]
             Hcity Hraw Hprint Hextract Htrip (proj1 Hrep)).
  rewrite <- Dr in Hrr. rewrite <- Di in Hir. rewrite <- Db in Hbr.
  cbn [fold_left].
  rewrite (assign_research no_details t_r Hrr).
  rewrite (assign_research _ t_i Hir).
  rewrite (assign_research _ t_b Hbr).
  cbn [research_output itinerary_output budget_output no_details].
  now rewrite !clean_plain by reflexivity.
Qed.

End TaskDispatch.

(** A crew that hands back one result per task, with the descriptions
    [TripTasks] gives the tasks. *)
Definition crew_results (self : TripCrew) (city : pystr) : crew_output :=
  {| raw := None; result_attr := None;
     tasks_output :=
       Some [ {| description := city_research_description city;
                 task_raw := Some (VStr (py "Museums and parks"));
                 task_shown := py "TaskOutput" |};
              {| description :=
                   itinerary_description (inputs_dict (crew_inputs self)) city;
                 task_raw := Some (VStr (py "Day 1: arrival"));
                 task_shown := py "TaskOutput" |};
              {| description :=
                   budget_description (inputs_dict (crew_inputs self)) city;
                 task_raw := Some (VStr (py "EUR 150 per day"));
                 task_shown := py "TaskOutput" |} ];
     shown := py "CrewOutput" |}.

Definition trip_reports : TripCrew -> pystr -> result crew_output :=
  fun self city => Ok (crew_results self city).

Definition research_triangle_list : crew_output :=
  {| raw := Some (VStr (py "1. Research Triangle, USA - ..."));
     result_attr := None; tasks_output := None; shown := py "CrewOutput" |}.

Definition city_research_triangle : TripCrew -> result crew_output :=
  fun _ => Ok research_triangle_list.

Lemma paris_results_reach_their_fields :
  run ascii_alnum ascii_lower city_ok trip_reports sample_crew
  = Ok {| city_selection := VStr (py "1. Paris, France - ...");
          city_research := VStr (py "Museums and parks");
          itinerary := VStr (py "Day 1: arrival");
          budget_plan := VStr (py "EUR 150 per day") |}.
Proof.
  etransitivity.
  - eapply (@run_routes_results ascii_alnum ascii_lower city_ok trip_reports
              sample_crew city_list (crew_results sample_crew (py "Paris"))
              (VStr (py "1. Paris, France - ...")) (py "Paris"));
      unfold reports, plain_inputs; split_all; vm_compute; reflexivity.
  - vm_compute. reflexivity.
Defined.

Lemma research_triangle_loses_two_fields :
  run ascii_alnum ascii_lower city_research_triangle trip_reports sample_crew
  = Ok {| city_selection := VStr (py "1. Research Triangle, USA - ...");
          city_research := VStr (py "EUR 150 per day");
          itinerary := VStr (py "No itinerary available");
          budget_plan := VStr (py "No budget available") |}.
Proof.
  etransitivity.
  - eapply (@run_misroutes_research_city ascii_alnum ascii_lower
              city_research_triangle trip_reports sample_crew
              research_triangle_list
              (crew_results sample_crew (py "Research Triangle"))
              (VStr (py "1. Research Triangle, USA - ..."))
              (py "Research Triangle"));
      unfold reports, plain_inputs; split_all; vm_compute; reflexivity.
  - vm_compute. reflexivity.
Defined.

Section RunEdges.

Variable isalnum_high : N -> bool.
Variable lower_high : pystr -> pystr.
Variable city_kickoff : TripCrew -> result crew_output.
Variable trip_kickoff : TripCrew -> pystr -> result crew_output.

(** X9. Let the city result hold no surrogate. When the second crew
    hands back no task results (the attribute is missing or the list is
    empty), the research, itinerary and budget fields all hold the same
    text: the crew's [result] if it has one, else the text of the object
    itself. *)
Theorem run_without_task_results (self : TripCrew) (o d : crew_output)
    (city_output_raw : pyval) (city : pystr) :
  city_kickoff self = Ok o ->
  city_output_raw_of o = Ok city_output_raw ->
  existsb is_surrogate (str_of city_output_raw) = false ->
  extract_first_city isalnum_high lower_high city_output_raw = Ok city ->
  trip_kickoff self city = Ok d ->
  tasks_output d = None \/ tasks_output d = Some [] ->
  exists text,
    text = str_of (match result_attr d with
                   | Some r => r
                   | None => VObj (shown d)
                   end)
    /\ run isalnum_high lower_high city_kickoff trip_kickoff self
       = Ok {| city_selection := clean_surrogates isalnum_high city_output_raw;
               city_research := clean_surrogates isalnum_high (VStr text);
               itinerary := clean_surrogates isalnum_high (VStr text);
               budget_plan := clean_surrogates isalnum_high (VStr text) |}.
Proof.
  intros Hcity Hraw Hprint Hextract Htrip Hts.
  eexists. split; [reflexivity|].
  unfold run. rewrite (@run_body_after_city isalnum_high lower_high city_kickoff
             trip_kickoff self o _ _ Hcity Hraw Hprint Hextract).
  rewrite Htrip; cbn [bind_result].
  unfold collect_details.
  destruct Hts as [-> | ->]; now rewrite print_writes by reflexivity.
Qed.

(** X10. A city result that cannot be read as text ends in the error
    dict, whatever the second crew would have done: an object with
    neither [raw] nor [result] through the [AttributeError] of the
    probe, a [raw] that is neither a str nor a dict through the
    [TypeError] of the search (or, when the text of that object holds a
    surrogate, through the print before the search; the dict is the
    same for the same text). *)
Theorem run_unreadable_city_result (self : TripCrew) (o : crew_output) :
  city_kickoff self = Ok o ->
  (raw o = None -> result_attr o = None ->
   exists msg,
     run isalnum_high lower_high city_kickoff trip_kickoff self
     = Ok (error_plan (AttributeError msg)))
  /\ (forall shown,
        raw o = Some (VObj shown) ->
        exists msg,
          run isalnum_high lower_high city_kickoff trip_kickoff self
          = Ok (error_plan (TypeError msg))).
Proof.
  intros Hcity. split.
  - intros Hraw Hres. eexists. apply run_handles_plain.
    + unfold run_body. rewrite print_writes by reflexivity.
      cbn [bind_result]. rewrite Hcity; cbn [bind_result].
      unfold city_output_raw_of. rewrite Hraw, Hres. reflexivity.
    + reflexivity.
  - intros s Hraw.
    assert (Hout : city_output_raw_of o = Ok (VObj s))
      by (unfold city_output_raw_of; now rewrite Hraw).
    destruct (existsb is_surrogate s) eqn:Hs.
    + destruct (@run_unprintable_city_result isalnum_high lower_high
                  city_kickoff trip_kickoff self o (VObj s) Hcity Hout Hs)
        as (msg & _ & H).
      exists msg. exact H.
    + eexists. apply run_handles_plain.
      * unfold run_body. rewrite print_writes by reflexivity.
        cbn [bind_result]. rewrite Hcity; cbn [bind_result].
        rewrite Hout; cbn [bind_result].
        rewrite print_writes by (apply printable_app; [reflexivity|exact Hs]).
        reflexivity.
      * reflexivity.
Qed.

End RunEdges.

Definition trip_without_tasks : TripCrew -> pystr -> result crew_output :=
  fun _ _ =>
    Ok {| raw := None; result_attr := Some (VStr (py "All done"));
          tasks_output := Some []; shown := py "CrewOutput" |}.

Definition city_returns_none : TripCrew -> result crew_output :=
  fun _ =>
    Ok {| raw := Some (VObj (py "None")); result_attr := None;
          tasks_output := None; shown := py "CrewOutput" |}.

Lemma empty_task_list_repeats_result :
  run ascii_alnum ascii_lower city_ok trip_without_tasks sample_crew
  = Ok {| city_selection := VStr (py "1. Paris, France - ...");
          city_research := VStr (py "All done");
          itinerary := VStr (py "All done");
          budget_plan := VStr (py "All done") |}.
Proof.
  destruct (@run_without_task_results ascii_alnum ascii_lower city_ok
              trip_without_tasks sample_crew city_list _
              (VStr (py "1. Paris, France - ...")) (py "Paris")
              eq_refl eq_refl eq_refl eq_refl eq_refl (or_intror eq_refl))
    as (text & -> & H).
  rewrite H. vm_compute. reflexivity.
Defined.

Lemma none_as_city_result_gives_error_dict :
  exists msg,
    run ascii_alnum ascii_lower city_returns_none trip_reports sample_crew
    = Ok (error_plan (TypeError msg)).
Proof.
  exact (proj2 (@run_unreadable_city_result ascii_alnum ascii_lower
                  city_returns_none trip_reports sample_crew _ eq_refl)
           (py "None") eq_refl).
Defined.

(** ** [main_simple.py]: the city picked from the first answer *)

(** [s.split(sep)] for a one-character separator. *)
Fixpoint split_on (sep : N) (s : pystr) : list pystr :=
  match s with
  | [] => [[]]
  | c :: rest =>
      if (c =? sep)%N then [] :: split_on sep rest
      else match split_on sep rest with
           | part :: parts => (c :: part) :: parts
           | [] => [[c]]
           end
  end.

(** [s.split(sep)[0]] *)
Definition first_part (sep : N) (s : pystr) : pystr := hd [] (split_on sep s).

Section SimplePipeline.

(** [str.isdigit] and [str.isalpha] above the ASCII range belong to the
    interpreter. *)
Variable isdigit_high : N -> bool.
Variable isalpha_high : N -> bool.

Definition isdigit (c : N) : bool :=
  if (c <? 128)%N then isdigit_ascii c else isdigit_high c.

Definition isalpha (c : N) : bool :=
  if (c <? 128)%N then isupper_ascii c || islower_ascii c else isalpha_high c.

(** The loop [for line in lines] of [main]: the running value is the
    default until a line sets it and breaks. *)
Fixpoint select_city_from (lines : list pystr) : pystr :=
  match lines with
  | [] => py "Paris"
  | line :: rest =>
      if existsb isdigit line && existsb isalpha line
      then match split_on 46 line with
           | _ :: part :: _ =>
               let city_part := strip (first_part 45 (first_part 44 part)) in
               if 2 <? List.length city_part
               then city_part
               else select_city_from rest
           | _ => select_city_from rest
           end
      else select_city_from rest
  end.

Definition select_city (city_recommendations : pystr) : pystr :=
  select_city_from (split_on 10 city_recommendations).

(** Oracle for the Groq client, as in [get_groq_response]. *)
Variable chat_completion : pystr -> result pystr.

(** The four texts [main] shows and the city it plans for. *)
Record simple_plan := {
  city_recommendations : pystr;
  selected_city : pystr;
  research : pystr;
  simple_itinerary : pystr;
  simple_budget : pystr
}.

Definition simple_stages (inputs : Inputs) : simple_plan :=
  let city_recommendations :=
    generate_city_recommendations chat_completion inputs in
  let selected_city := select_city city_recommendations in
  {| city_recommendations := city_recommendations;
     selected_city := selected_city;
     research :=
       generate_destination_research chat_completion selected_city inputs;
     simple_itinerary := generate_itinerary chat_completion selected_city inputs;
     simple_budget := generate_budget_plan chat_completion selected_city inputs |}.

(** The characters a selected city cannot hold: line feed, full stop,
    comma and hyphen. *)
Definition no_separator (c : N) : bool :=
  negb (c =? 10)%N && negb (c =? 46)%N && negb (c =? 44)%N && negb (c =? 45)%N.

Lemma split_on_pieces (q0 q : N -> bool) (sep : N) (s : pystr) :
  forallb q0 s = true ->
  (forall c, q0 c = true -> c <> sep -> q c = true) ->
  Forall (fun p => forallb q p = true) (split_on sep s).
Proof.
  intros Hs Hq. induction s as [|c s IH]; [repeat constructor|].
  cbn in Hs. apply andb_true_iff in Hs as [Hc Hs]. specialize (IH Hs).
  cbn [split_on]. destruct (c =? sep)%N eqn:E.
  - constructor; [reflexivity|exact IH].
  - apply N.eqb_neq in E.
    destruct (split_on sep s) as [|part parts].
    + repeat constructor. cbn. now rewrite (Hq c Hc E).
    + inversion IH as [|? ? Hpart Hparts]; subst.
      constructor; [|exact Hparts]. cbn. now rewrite (Hq c Hc E), Hpart.
Qed.

Lemma split_on_absent (sep : N) (s : pystr) :
  forallb (fun c => negb (c =? sep)%N) s = true -> split_on sep s = [s].
Proof.
  induction s as [|c s IH]; [reflexivity|].
  cbn. intros H. apply andb_true_iff in H as [Hc Hs].
  apply negb_true_iff in Hc. now rewrite Hc, (IH Hs).
Qed.

Lemma first_part_pieces (q0 q : N -> bool) (sep : N) (s : pystr) :
  forallb q0 s = true ->
  (forall c, q0 c = true -> c <> sep -> q c = true) ->
  forallb q (first_part sep s) = true.
Proof.
  intros Hs Hq. unfold first_part.
  destruct (@split_on_pieces q0 q sep s Hs Hq); [reflexivity|assumption].
Qed.

Lemma dropwhile_suffix (p : N -> bool) (s : pystr) :
  exists pre, s = pre ++ dropwhile p s.
Proof.
  induction s as [|c s [pre IH]]; [now exists []|].
  cbn [dropwhile]. destruct (p c).
  - exists (c :: pre). cbn. now f_equal.
  - now exists [].
Qed.

(** [strip] leaves no white space at either end. *)
Lemma strip_trimmed (s : pystr) :
  begins_with (fun c => negb (isspace c)) (strip s)
  /\ no_trailing_space (strip s).
Proof.
  unfold strip, no_trailing_space. rewrite rev_involutive.
  pose proof (dropwhile_head isspace s) as Hd.
  pose proof (dropwhile_head isspace (rev (dropwhile isspace s))) as He.
  destruct (dropwhile_suffix isspace (rev (dropwhile isspace s))) as [pre E].
  set (d := dropwhile isspace s) in *.
  set (e := dropwhile isspace (rev d)) in *.
  split.
  - assert (Ed : d = rev e ++ rev pre)
      by now rewrite <- rev_app_distr, <- E, rev_involutive.
    destruct (rev e) as [|c x]; [exact I|].
    rewrite Ed in Hd. exact Hd.
  - destruct e as [|c x]; [exact I|].
    cbn in He. now apply negb_true_iff.
Qed.

(** What every selected city looks like. *)
Definition selected_shape (city : pystr) : Prop :=
  2 < List.length city
  /\ forallb no_separator city = true
  /\ begins_with (fun c => negb (isspace c)) city
  /\ no_trailing_space city.

Lemma select_city_from_shape (lines : list pystr) :
  Forall (fun l => forallb (fun c => negb (c =? 10)%N) l = true) lines ->
  selected_shape (select_city_from lines).
Proof.
  induction 1 as [|line lines Hline _ IH].
  - repeat split; try reflexivity. cbn. lia.
  - cbn [select_city_from].
    destruct (existsb isdigit line && existsb isalpha line); [|exact IH].
    pose proof (@split_on_pieces _ (fun c => negb (c =? 10)%N && negb (c =? 46)%N)
                  46 line Hline) as Hparts.
    destruct (split_on 46 line) as [|first [|part parts]]; try exact IH.
    assert (Hpart : forallb (fun c => negb (c =? 10)%N && negb (c =? 46)%N)
                      part = true).
    { assert (Hall : Forall (fun p => forallb
                         (fun c => negb (c =? 10)%N && negb (c =? 46)%N) p
                         = true) (first :: part :: parts)).
      { apply Hparts. intros c Hc Hne. rewrite Hc.
        now apply N.eqb_neq in Hne as ->. }
      inversion Hall as [|? ? _ Hrest]; subst.
      now inversion Hrest. }
    destruct (2 <? List.length (strip (first_part 45 (first_part 44 part))))
      eqn:Hlen; [|exact IH].
    split; [now apply Nat.ltb_lt|].
    split; [|apply strip_trimmed].
    apply strip_within.
    apply first_part_pieces
      with (q0 := fun c => negb (c =? 10)%N && negb (c =? 46)%N
                           && negb (c =? 44)%N).
    + apply first_part_pieces
        with (q0 := fun c => negb (c =? 10)%N && negb (c =? 46)%N);
        [exact Hpart|].
      intros c Hc Hne. rewrite Hc. now apply N.eqb_neq in Hne as ->.
    + intros c Hc Hne. unfold no_separator. rewrite Hc.
      now apply N.eqb_neq in Hne as ->.
Qed.

Lemma lines_have_no_line_feed (text : pystr) :
  Forall (fun l => forallb (fun c => negb (c =? 10)%N) l = true)
         (split_on 10 text).
Proof.
  apply split_on_pieces with (q0 := fun _ => true).
  - now apply forallb_forall.
  - intros c _ Hne. now apply N.eqb_neq in Hne as ->.
Qed.

(** X11. The city [main] plans for is longer than two characters, holds
    no line feed, full stop, comma or hyphen, and neither begins nor
    ends with white space, whatever the first answer was. *)
Theorem select_city_shape (text : pystr) :
  2 < List.length (select_city text)
  /\ forallb no_separator (select_city text) = true
  /\ begins_with (fun c => negb (isspace c)) (select_city text)
  /\ no_trailing_space (select_city text).
Proof.
  apply select_city_from_shape, lines_have_no_line_feed.
Qed.

Lemma select_city_from_default (lines : list pystr) :
  Forall (fun l => forallb (fun c => negb (c =? 46)%N) l = true
                   \/ existsb isdigit l = false
                   \/ existsb isalpha l = false) lines ->
  select_city_from lines = py "Paris".
Proof.
  induction 1 as [|line lines Hline _ IH]; [reflexivity|].
  cbn [select_city_from].
  destruct Hline as [Hdot|[Hd|Ha]].
  - rewrite (@split_on_absent 46 line Hdot).
    now destruct (existsb isdigit line && existsb isalpha line).
  - now rewrite Hd.
  - rewrite Ha, andb_false_r. exact IH.
Qed.

Lemma pieces_without (p : N -> bool) (sep : N) (s : pystr) :
  existsb p s = false ->
  Forall (fun l => existsb p l = false) (split_on sep s).
Proof.
  intros H.
  assert (Hq : forallb (fun c => negb (p c)) s = true).
  { apply forallb_forall. intros c Hc. apply negb_true_iff.
    destruct (p c) eqn:E; [|reflexivity].
    rewrite <- H. symmetry. apply existsb_exists. eauto. }
  pose proof (@split_on_pieces _ (fun c => negb (p c)) sep s Hq
                (fun c Hc _ => Hc)) as Hall.
  induction Hall as [|l ls Hl _ IH]; constructor; [|exact IH].
  destruct (existsb p l) eqn:E; [|reflexivity].
  apply existsb_exists in E as (c & Hc & Hpc).
  rewrite forallb_forall in Hl. specialize (Hl c Hc).
  now rewrite Hpc in Hl.
Qed.

Lemma select_city_needs_numbered_line_aux (text : pystr) :
  existsb (fun c => (c =? 46)%N) text = false ->
  select_city text = py "Paris".
Proof.
  intros H. apply select_city_from_default.
  apply (@pieces_without _ 10 _) in H.
  induction H as [|l ls Hl _ IH]; constructor; auto.
  left. apply forallb_forall. intros c Hc. apply negb_true_iff.
  destruct (c =? 46)%N eqn:E; [|reflexivity].
  rewrite <- Hl. symmetry. apply existsb_exists. eauto.
Qed.

(** X12. An answer without a full stop, without a digit or without a
    letter selects the default city: only a line with all three can
    set it. *)
Theorem select_city_needs_numbered_line (text : pystr) :
  existsb (fun c => (c =? 46)%N) text = false
  \/ existsb isdigit text = false
  \/ existsb isalpha text = false ->
  select_city text = py "Paris".
Proof.
  intros H. apply select_city_from_default.
  destruct H as [H|[H|H]];
    apply (@pieces_without _ 10 _) in H;
    induction H as [|l ls Hl _ IH]; constructor; auto.
  left. apply forallb_forall. intros c Hc. apply negb_true_iff.
  destruct (c =? 46)%N eqn:E; [|reflexivity].
  rewrite <- Hl. symmetry. apply existsb_exists. eauto.
Qed.

(** X13. When the first completion fails and the text of the failure
    has no full stop, the three later stages are still requested, for
    the default city. *)
Theorem simple_stages_after_failure (inputs : Inputs) (e : exn) :
  chat_completion (city_recommendations_prompt inputs) = Raise e ->
  existsb (fun c => (c =? 46)%N) (exn_msg e) = false ->
  simple_stages inputs
  = {| city_recommendations := py "Error: " ++ exn_msg e;
       selected_city := py "Paris";
       research :=
         get_groq_response chat_completion
           (destination_research_prompt (py "Paris") inputs);
       simple_itinerary :=
         get_groq_response chat_completion
           (itinerary_prompt (py "Paris") inputs);
       simple_budget :=
         get_groq_response chat_completion
           (budget_plan_prompt (py "Paris") inputs) |}.
Proof.
  intros Hfail Hdot. unfold simple_stages.
  assert (Htext : generate_city_recommendations chat_completion inputs
                  = py "Error: " ++ exn_msg e)
    by (unfold generate_city_recommendations, get_groq_response;
        now rewrite Hfail).
  rewrite Htext.
  assert (Hcity : select_city (py "Error: " ++ exn_msg e) = py "Paris").
  { apply select_city_needs_numbered_line_aux. now rewrite existsb_app, Hdot. }
  rewrite Hcity. reflexivity.
Qed.

End SimplePipeline.

Definition no_digits : N -> bool := fun _ => false.
Definition no_letters : N -> bool := fun _ => false.

Lemma prose_answer_selects_paris :
  select_city no_digits no_letters (py "Try Tokyo, Kyoto and Osaka in spring")
  = py "Paris".
Proof.
  apply select_city_needs_numbered_line. left. reflexivity.
Defined.

Lemma failed_first_completion_plans_paris :
  simple_stages no_digits no_letters no_completion sample_inputs
  = {| city_recommendations := py "Error: no client";
       selected_city := py "Paris";
       research := py "Error: no client";
       simple_itinerary := py "Error: no client";
       simple_budget := py "Error: no client" |}.
Proof.
  rewrite (@simple_stages_after_failure no_digits no_letters no_completion
             sample_inputs (ServiceError (py "no client")) eq_refl eq_refl).
  reflexivity.
Defined.

(** ** [main.py]: what the page shows after the button is pressed *)

(** The Streamlit calls of the [if st.button(...)] branch, in the order
    they are made; a call inside [with tabN:] carries the tab's number. *)
Inductive st_event :=
| St_warning (body : pystr)
| St_spinner (text : pystr)
| St_subheader (body : pystr)
| St_tabs (names : list pystr)
| St_header (tab : nat) (body : pystr)
| St_markdown (tab : nat) (body : pystr)
| St_info (tab : nat) (body : pystr)
| St_json (tab : nat) (expander : pystr) (body : pydict)
| St_success (body : pystr)
| St_error (body : pystr)
| St_exception (e : exn).

(** The dict [run] returns, with its keys. *)
Definition plan_dict (plan : TripPlan) : pydict :=
  [ ([0x1F306%N] ++ py " City Selection", city_selection plan);
    ([0x1F5FA%N] ++ py " City Research", city_research plan);
    ([0x1F4C5%N] ++ py " Itinerary", itinerary plan);
    ([0x1F4B8%N] ++ py " Budget Plan", budget_plan plan) ].

Section Page.

Variable isalnum_high : N -> bool.
Variable lower_high : pystr -> pystr.
Variable env : environ.
Variable LLM_raises : llm_config -> option exn.
Variable city_kickoff : TripCrew -> result crew_output.
Variable trip_kickoff : TripCrew -> pystr -> result crew_output.

(** [f'<div style="font-size: 16px;">{clean_surrogates(value)}</div>'] *)
Definition div (value : pyval) : pystr :=
  py "<div style=" ++ [0x22%N] ++ py "font-size: 16px;" ++ [0x22%N] ++ py ">"
  ++ str_of (clean_surrogates isalnum_high value) ++ py "</div>".

(** The calls of the [try] block once [crew_output] is there, for the
    four values looked up in it. *)
Definition page_of (cities research itinerary budget : pyval)
    (crew_output : pydict) : list st_event :=
  [ St_subheader ([0x1F5FA%N; 0xFE0F%N] ++ py " Your AI-Generated Travel Plan");
    St_tabs (map py ["Cities"; "Research"; "Itinerary"; "Budget"; "Debug"]%string);
    St_header 1 ([0x1F306%N] ++ py " Recommended Cities");
    St_markdown 1 (div cities);
    St_header 2 ([0x1F5FA%N] ++ py " Destination Insights");
    St_markdown 2 (div research);
    St_header 3 ([0x1F4C5%N] ++ py " Detailed Itinerary");
    St_markdown 3 (div itinerary);
    St_header 4 ([0x1F4B8%N] ++ py " Budget Breakdown");
    St_markdown 4 (div budget);
    St_header 5 ([0x1F9EA%N] ++ py " Debug Output");
    St_info 5
      ([0x1F527%N] ++ py " This section shows the raw technical data from the AI agents. It's mainly useful for developers to troubleshoot issues.");
    St_json 5 (py "View Raw Data (Technical)") crew_output;
    St_success
      ([0x2705%N] ++ py " Trip planning completed! Enjoy your journey! "
       ++ [0x1F389%N]) ].

Definition show_plan (crew_output : pydict) : list st_event :=
  page_of
    (dict_get crew_output ([0x1F306%N] ++ py " City Selection")
       (VStr ([0x1F6AB%N] ++ py " No city selection found.")))
    (dict_get crew_output ([0x1F5FA%N] ++ py " City Research")
       (VStr ([0x1F6AB%N] ++ py " No city research found.")))
    (dict_get crew_output ([0x1F4C5%N] ++ py " Itinerary")
       (VStr ([0x1F6AB%N] ++ py " No itinerary generated.")))
    (dict_get crew_output ([0x1F4B8%N] ++ py " Budget Plan")
       (VStr ([0x1F6AB%N] ++ py " No budget breakdown available.")))
    crew_output.

(** The calls of the [except] block. *)
Definition show_failure (e : exn) : list st_event :=
  [ St_error
      ([0x274C%N] ++ py " An error occurred while generating the travel plan:");
    St_exception e;
    St_info 0
      (py "Please check your `.env.local` file for correct API keys and model configurations. Also, check the terminal for detailed error messages from LiteLLM and CrewAI.") ].

Definition select_interest : st_event :=
  St_warning
    ([0x26A0%N; 0xFE0F%N]
     ++ py " Please select at least one interest to help us plan your trip better.").

Definition working : st_event :=
  St_spinner
    ([0x1F9E0%N]
     ++ py " AI Agents are working on your perfect trip... This may take a few minutes. Please be patient.").

(** The branch taken when the button is pressed: the calls made on the
    page and the [LLM(...)] calls made on the way. *)
Definition on_generate (travel : pystr) (selected : list pystr)
    (when : pystr) (days : Z) (range : pystr)
    : list st_event * list llm_config :=
  match form_inputs travel selected when days range with
  | None => ([select_interest], [])
  | Some inputs =>
      let (crew, calls) := TripCrew_init env LLM_raises inputs [] in
      (working
       :: match bind_result crew
                  (run isalnum_high lower_high city_kickoff trip_kickoff) with
          | Ok crew_output => show_plan (plan_dict crew_output)
          | Raise e => show_failure e
          end,
       calls)
  end.

Lemma show_plan_finds_fields (plan : TripPlan) :
  show_plan (plan_dict plan)
  = page_of (city_selection plan) (city_research plan) (itinerary plan)
      (budget_plan plan) (plan_dict plan).
Proof. reflexivity. Qed.

Lemma TripCrew_init_calls (inputs : Inputs) :
  TripCrew_init env LLM_raises inputs []
  = (match fst (_initialize_llm env LLM_raises []) with
     | Ok l => Ok {| crew_inputs := inputs;
                     crew_agents := {| agents_llm := l |} |}
     | Raise e => Raise e
     end, snd (_initialize_llm env LLM_raises [])).
Proof.
  unfold TripCrew_init, TripAgents_init, bind.
  now destruct (_initialize_llm env LLM_raises []) as [[l|e] calls].
Qed.




(** X15. When an [LLM] could be built and the city-selection crew then
    fails with a text that can be written, the page is still the page of
    a plan: the first tab shows the error text with the message of the
    failure, the next three show ["Unable to generate due to error"],
    and the last call is the success message. When the text of the
    failure holds a surrogate, the page shows the error instead, with
    the [UnicodeEncodeError] of the print in [run]'s [except] block. *)
Theorem on_generate_after_city_failure (travel : pystr)
    (selected : list pystr) (when : pystr) (days : Z) (range : pystr)
    (inputs : Inputs) (l : llm) (e : exn) :
  form_inputs travel selected when days range = Some inputs ->
  fst (_initialize_llm env LLM_raises []) = Ok l ->
  city_kickoff {| crew_inputs := inputs; crew_agents := {| agents_llm := l |} |}
  = Raise e ->
  if existsb is_surrogate (exn_msg e)
  then exists msg,
         encode_error (error_line e) = Some msg
         /\ fst (on_generate travel selected when days range)
            = working :: show_failure (UnicodeEncodeError msg)
  else fst (on_generate travel selected when days range)
       = working
         :: page_of
              (VStr (py "Error occurred during city selection: " ++ exn_msg e
                     ++ py ". Please check your API configuration and try again."))
              (VStr (py "Unable to generate due to error"))
              (VStr (py "Unable to generate due to error"))
              (VStr (py "Unable to generate due to error"))
              (plan_dict (error_plan e)).
Proof.
  intros Hform Hl Hcity. unfold on_generate.
  rewrite Hform, TripCrew_init_calls, Hl. cbn [bind_result fst].
  apply run_body_city_raises with (isalnum_high := isalnum_high)
    (lower_high := lower_high) (trip_kickoff := trip_kickoff) in Hcity.
  pose proof Hcity as R. apply run_handles in R.
  destruct (existsb is_surrogate (exn_msg e)).
  - destruct R as (msg & Hm & R). exists msg. now rewrite R.
  - now rewrite R.
Qed.

End Page.


Lemma failed_city_crew_pages :
  fst (on_generate ascii_alnum ascii_lower groq_only never_fails city_fails
         trip_reports (py "Leisure") [py "History"; py "Food"] (py "Summer") 7
         (py "Luxury (Rs4000+)"))
  = working
    :: page_of ascii_alnum
         (VStr (py "Error occurred during city selection: rate limit reached. Please check your API configuration and try again."))
         (VStr (py "Unable to generate due to error"))
         (VStr (py "Unable to generate due to error"))
         (VStr (py "Unable to generate due to error"))
         (plan_dict (error_plan (ServiceError (py "rate limit reached"))))
  /\ fst (on_generate ascii_alnum ascii_lower groq_only never_fails
            city_fails_unprintable trip_reports (py "Leisure")
            [py "History"; py "Food"] (py "Summer") 7 (py "Luxury (Rs4000+)"))
     = working
       :: show_failure
            (UnicodeEncodeError
               (py "'utf-8' codec can't encode character '\ud83d' in position 45: surrogates not allowed")).
Proof.
  split.
  - exact (@on_generate_after_city_failure ascii_alnum ascii_lower groq_only
             never_fails city_fails trip_reports (py "Leisure")
             [py "History"; py "Food"] (py "Summer") 7 (py "Luxury (Rs4000+)")
             _ {| llm_args := groq_config (py "llama3-8b-8192") |}
             (ServiceError (py "rate limit reached")) eq_refl eq_refl eq_refl).
  - pose proof (@on_generate_after_city_failure ascii_alnum ascii_lower
                  groq_only never_fails city_fails_unprintable trip_reports
                  (py "Leisure") [py "History"; py "Food"] (py "Summer") 7
                  (py "Luxury (Rs4000+)")
                  _ {| llm_args := groq_config (py "llama3-8b-8192") |}
                  (ServiceError (py "invalid response: " ++ [0xD83D%N]))
                  eq_refl eq_refl eq_refl) as R.
    cbn [exn_msg] in R.
    change (existsb is_surrogate (py "invalid response: " ++ [0xD83D%N]))
      with true in R.
    destruct R as (msg & Hm & R).
    rewrite R. vm_compute in Hm. injection Hm as <-. reflexivity.
Defined.
